(** * Meetup forms of the Systers portal: a shallow embedding

    Source: [systers_portal/meetup/forms.py].

    The module is a set of Django [ModelForm] subclasses.  Each class is
    embedded as the functions it defines ([__init__], [save], [clean_date],
    [clean_time]); a model instance is the dictionary of its attributes; the
    database, the meeting-provider client and the clock are an explicit
    world that every method threads through a state-and-exception monad. *)

From stdpp Require Import base strings gmap list fin_maps.
From Stdlib Require Import ZArith Lia.

Local Open Scope string_scope.
Local Open Scope Z_scope.

(** ** Python values *)

(** [datetime.date]: ordered as the tuple (year, month, day). *)
Record date := mkDate { year : Z; month : Z; day : Z }.

(** [datetime.time] (naive): ordered as (hour, minute, second, microsecond). *)
Record time := mkTime { hour : Z; minute : Z; second : Z; microsecond : Z }.

(** [datetime.datetime] as returned by [timezone.now()]. *)
Record datetime := mkDatetime { dt_date : date; dt_time : time }.

#[global] Instance date_eq_dec : EqDecision date.
Proof. solve_decision. Defined.
#[global] Instance time_eq_dec : EqDecision time.
Proof. solve_decision. Defined.

(** The values that the forms handle.  [VObj model pk] is a reference to a
    saved object of another model (a user, a meetup, a commented object);
    [VFiles] is the list of uploaded files of a [MultiFileField]. *)
Inductive value :=
| VNone
| VBool (b : bool)
| VInt (z : Z)
| VStr (s : string)
| VDate (d : date)
| VTime (t : time)
| VObj (model : string) (pk : Z)
| VFiles (fs : list string).

#[global] Instance value_eq_dec : EqDecision value.
Proof. solve_decision. Defined.

(** A Python dict with string keys; also the attributes of an object. *)
Abbreviation dict := (gmap string value).

(** Exceptions that the embedded code can raise. *)
Inductive exn :=
| ValidationError (message : string) (code : option string)
| KeyError (key : string)
| AttributeError (name : string)
| TypeError
| ValueError
| DoesNotExist
| ProviderError (detail : string).

Inductive result (A : Type) :=
| Ok (a : A)
| Raise (e : exn).
Arguments Ok {A} a.
Arguments Raise {A} e.

(** [date.__lt__] and [time.__lt__]: lexicographic on the fields. *)
Definition date_ltb (a b : date) : bool :=
  (year a <? year b)
  || ((year a =? year b)
      && ((month a <? month b)
          || ((month a =? month b) && (day a <? day b)))).

Definition time_ltb (a b : time) : bool :=
  (hour a <? hour b)
  || ((hour a =? hour b)
      && ((minute a <? minute b)
          || ((minute a =? minute b)
              && ((second a <? second b)
                  || ((second a =? second b)
                      && (microsecond a <? microsecond b)))))).

(** [a < b] on values: defined between two dates and between two times,
    [TypeError] otherwise (in particular when one side is [None]). *)
Definition py_lt (a b : value) : result bool :=
  match a, b with
  | VDate x, VDate y => Ok (date_ltb x y)
  | VTime x, VTime y => Ok (time_ltb x y)
  | _, _ => Raise TypeError
  end.

(** [a == b]: the forms compare a cleaned date (a date or [None]) with a
    date, where [==] is equality of the fields and [None] equals no date. *)
Definition py_eq (a b : value) : bool := bool_decide (a = b).

(** Truth value of an object in a condition.  A [time] is always true
    (Python 3.5 and later); a date and an object reference are always true. *)
Definition truthy (v : value) : bool :=
  match v with
  | VNone => false
  | VBool b => b
  | VInt z => negb (z =? 0)
  | VStr s => negb (String.eqb s "")
  | VDate _ => true
  | VTime _ => true
  | VObj _ _ => true
  | VFiles fs => match fs with [] => false | _ => true end
  end.

(** [d.get(k)]: [None] when the key is absent. *)
Definition dict_get (d : dict) (k : string) : value :=
  match d !! k with Some v => v | None => VNone end.

(** [d[k]]: [KeyError] when the key is absent. *)
Definition dict_item (d : dict) (k : string) : result value :=
  match d !! k with Some v => Ok v | None => Raise (KeyError k) end.

(** [o.name]: [AttributeError] when the attribute is absent. *)
Definition getattr (o : dict) (name : string) : result value :=
  match o !! name with Some v => Ok v | None => Raise (AttributeError name) end.

(** [o.name = v]. *)
Definition setattr (o : dict) (name : string) (v : value) : dict :=
  <[name := v]> o.

(** [kwargs.pop(k)]: the value and the remaining dict. *)
Definition dict_pop (d : dict) (k : string) : result (value * dict) :=
  match d !! k with
  | Some v => Ok (v, delete k d)
  | None => Raise (KeyError k)
  end.

(** ** The world: database, provider client, clock *)

(** A call to the meeting-provider client of [meetup.utils], with the
    attributes of the instance it was given. *)
Inductive call :=
| Call_create_meetup (inst : dict)
| Call_edit_meetup (inst : dict)
| Call_get_meetup (inst : dict).

(** What the methods can change.  [rows] holds the saved rows of every
    model, by model name and primary key; [images] is the [MeetupImages]
    table, each row an image file and the primary key of its meetup;
    [calls] lists the calls made to the provider client, oldest first;
    [next_pk] is the next primary key that the database hands out;
    [ticks] counts the readings of the clock. *)
Record World := mkWorld {
  rows : gmap (string * Z) dict;
  images : list (string * Z);
  calls : list call;
  next_pk : Z;
  ticks : nat
}.

(** A form object at the time its methods run: the attributes that its
    [__init__] stored on [self], the model instance, the cleaned data and
    the errors collected by validation. *)
Record Form := mkForm {
  self_attrs : dict;
  form_instance : dict;
  cleaned_data : dict;
  errors : list (string * exn)
}.

(** What the methods only read, none of it defined in [forms.py]:
    [clock n] is the [n]-th reading of [timezone.now()];
    [systers_user u] is the [SystersUser] row whose [user] is [u], if any;
    [provider past c] is the answer of the meeting-provider client to call
    [c] after the calls [past];
    [ModelForm_init args kwargs] is the state that Django's [ModelForm]
    constructor and validation give a form built from these arguments. *)
Record Env := mkEnv {
  clock : nat -> datetime;
  systers_user : value -> option value;
  provider : list call -> call -> result dict;
  ModelForm_init : list value -> dict -> Form
}.

(** Computations: a state monad over [World] in which an exception leaves
    the effects made so far in place, as in Python. *)
Definition M (A : Type) : Type := World -> result A * World.

Definition ret {A} (a : A) : M A := fun w => (Ok a, w).
Definition raise {A} (e : exn) : M A := fun w => (Raise e, w).
Definition bind {A B} (m : M A) (k : A -> M B) : M B :=
  fun w => match m w with
           | (Ok a, w') => k a w'
           | (Raise e, w') => (Raise e, w')
           end.
Definition lift {A} (r : result A) : M A := fun w => (r, w).

Declare Scope py_scope.
Delimit Scope py_scope with py.
Notation "x <- m ;; k" := (bind m (fun x => k))
  (at level 100, m at next level, right associativity) : py_scope.
Notation "m ;;; k" := (bind m (fun _ => k))
  (at level 100, right associativity) : py_scope.
Local Open Scope py_scope.

(** [for x in xs: body x]. *)
Fixpoint for_each {A} (xs : list A) (body : A -> M unit) : M unit :=
  match xs with
  | [] => ret tt
  | x :: xs' => body x ;;; for_each xs' body
  end.

(** Iterating over the cleaned value of a [MultiFileField]. *)
Definition iter_files (v : value) : result (list string) :=
  match v with
  | VFiles fs => Ok fs
  | _ => Raise TypeError
  end.

(** The primary key of an instance, [None] before its first save. *)
Definition pk_of (inst : dict) : option Z :=
  match inst !! "id" with
  | Some (VInt pk) => Some pk
  | _ => None
  end.

(** The form classes of the module. *)
Inductive FormClass :=
| RequestMeetupForm
| AddMeetupForm
| EditMeetupForm
| AddMeetupCommentForm
| EditMeetupCommentForm
| RsvpForm
| AddSupportRequestForm
| EditSupportRequestForm
| AddSupportRequestCommentForm
| EditSupportRequestCommentForm
| PastMeetup
| RequestVirtualMeetupForm.

#[global] Instance FormClass_eq_dec : EqDecision FormClass.
Proof. solve_decision. Defined.

(** [Meta.model] of each class. *)
Definition Meta_model (c : FormClass) : string :=
  match c with
  | RequestMeetupForm | RequestVirtualMeetupForm => "RequestMeetup"
  | AddMeetupForm | EditMeetupForm | PastMeetup => "Meetup"
  | AddMeetupCommentForm | EditMeetupCommentForm
  | AddSupportRequestCommentForm | EditSupportRequestCommentForm => "Comment"
  | RsvpForm => "Rsvp"
  | AddSupportRequestForm | EditSupportRequestForm => "SupportRequest"
  end.

(** The fields of each form: [Meta.fields], then the fields declared in the
    class body. *)
Definition form_fields (c : FormClass) : list string :=
  match c with
  | RequestMeetupForm =>
      ["title"; "slug"; "date"; "time"; "venue"; "meetup_location"; "description"]
  | AddMeetupForm =>
      ["title"; "slug"; "date"; "time"; "is_virtual"; "meetup_location";
       "venue"; "description"; "resources"; "images"]
  | EditMeetupForm =>
      ["title"; "slug"; "date"; "time"; "description"; "venue"; "images"]
  | AddMeetupCommentForm | EditMeetupCommentForm
  | AddSupportRequestCommentForm | EditSupportRequestCommentForm => ["body"]
  | RsvpForm => ["coming"; "plus_one"]
  | AddSupportRequestForm | EditSupportRequestForm => ["description"]
  | PastMeetup => ["resources"; "images"]
  | RequestVirtualMeetupForm => ["title"; "slug"; "date"; "time"; "description"]
  end.

Section Forms.

Variable E : Env.

(** ** Framework operations that the forms call *)

(** [timezone.now()]: one more reading of the clock. *)
Definition timezone_now : M datetime :=
  fun w => (Ok (clock E (ticks w)),
            mkWorld (rows w) (images w) (calls w) (next_pk w) (S (ticks w))).

(** [SystersUser.objects.get(user=u)]. *)
Definition SystersUser_objects_get (u : value) : M value :=
  match systers_user E u with
  | Some su => ret su
  | None => raise DoesNotExist
  end.

(** A call to the provider client: recorded, then answered. *)
Definition provider_call (c : call) : M dict :=
  fun w => (provider E (calls w) c,
            mkWorld (rows w) (images w) (calls w ++ [c]) (next_pk w) (ticks w)).

Definition create_meetup (inst : dict) : M dict :=
  provider_call (Call_create_meetup inst).
Definition edit_meetup (inst : dict) : M dict :=
  provider_call (Call_edit_meetup inst).
Definition get_meetup (inst : dict) : M dict :=
  provider_call (Call_get_meetup inst).

(** [instance.save()] of a model: an instance with a primary key
    overwrites its row; an instance without one is given the next key and
    inserted.  The instance is the same Python object before and after, so
    the caller goes on with the returned attributes. *)
Definition Model_save (model : string) (inst : dict) : M dict :=
  fun w =>
    match pk_of inst with
    | Some pk =>
        (Ok inst,
         mkWorld (<[(model, pk) := inst]> (rows w)) (images w) (calls w)
                 (next_pk w) (ticks w))
    | None =>
        let inst' := setattr inst "id" (VInt (next_pk w)) in
        (Ok inst',
         mkWorld (<[(model, next_pk w) := inst']> (rows w)) (images w) (calls w)
                 (next_pk w + 1) (ticks w))
    end.

(** [MeetupImages.objects.filter(meetup=instance).delete()]: the rows of
    this meetup go; an instance that was never saved has none. *)
Definition MeetupImages_delete_of (inst : dict) : M unit :=
  fun w =>
    (Ok tt,
     mkWorld (rows w)
             (filter (fun r => Some (snd r) <> pk_of inst) (images w))
             (calls w) (next_pk w) (ticks w)).

(** [MeetupImages.objects.create(image=img, meetup=instance)]: Django
    refuses ([ValueError]) a related instance that was never saved. *)
Definition MeetupImages_create (img : string) (inst : dict) : M unit :=
  fun w =>
    match pk_of inst with
    | Some pk =>
        (Ok tt,
         mkWorld (rows w) (images w ++ [(img, pk)]) (calls w)
                 (next_pk w) (ticks w))
    | None => (Raise ValueError, w)
    end.

(** [ModelForm.save(commit)] of Django, which every class inherits through
    [ModelFormWithHelper]: refuses a form with errors; saves the instance
    when [commit]; returns the instance. *)
Definition ModelForm_save (c : FormClass) (self : Form) (commit : bool) : M dict :=
  match errors self with
  | _ :: _ => raise ValueError
  | [] =>
      if commit then Model_save (Meta_model c) (form_instance self)
      else ret (form_instance self)
  end.

(** The loop that three [save] methods share:
    [[
      if self.cleaned_data['images']:
          for img in self.cleaned_data['images']:
              MeetupImages.objects.create(image=img, meetup=instance)
    ]] *)
Definition save_images (self : Form) (inst : dict) : M unit :=
  imgs <- lift (dict_item (cleaned_data self) "images") ;;
  if truthy imgs then
    imgs' <- lift (dict_item (cleaned_data self) "images") ;;
    fs <- lift (iter_files imgs') ;;
    for_each fs (fun img => MeetupImages_create img inst)
  else ret tt.

(** ** RequestMeetupForm *)

Definition RequestMeetupForm_init (args : list value) (kwargs : dict) : result Form :=
  match dict_pop kwargs "created_by" with
  | Ok (user, kwargs') =>
      let base := ModelForm_init E args kwargs' in
      Ok (mkForm (setattr (self_attrs base) "user" user)
                 (form_instance base) (cleaned_data base) (errors base))
  | Raise e => Raise e
  end.

Definition RequestMeetupForm_save (self : Form) (commit : bool) : M dict :=
  instance <- ModelForm_save RequestMeetupForm self false ;;
  user <- lift (getattr (self_attrs self) "user") ;;
  su <- SystersUser_objects_get user ;;
  let instance := setattr instance "created_by" su in
  if commit then Model_save (Meta_model RequestMeetupForm) instance
  else ret instance.

Definition RequestMeetupForm_clean_date (self : Form) : M value :=
  let date := dict_get (cleaned_data self) "date" in
  now <- timezone_now ;;
  past <- lift (py_lt date (VDate (dt_date now))) ;;
  if past then
    raise (ValidationError "Date should not be before today's date."
                           (Some "date_in_past"))
  else ret date.

Definition RequestMeetupForm_clean_time (self : Form) : M value :=
  let time := dict_get (cleaned_data self) "time" in
  let date := dict_get (cleaned_data self) "date" in
  if truthy time then
    now <- timezone_now ;;
    if py_eq date (VDate (dt_date now)) then
      now' <- timezone_now ;;
      past <- lift (py_lt time (VTime (dt_time now'))) ;;
      if past then
        raise (ValidationError "Time should not be a time that has already passed."
                               (Some "time_in_past"))
      else ret time
    else ret time
  else ret time.

(** ** AddMeetupForm *)

Definition AddMeetupForm_init (args : list value) (kwargs : dict) : result Form :=
  match dict_pop kwargs "created_by" with
  | Ok (created_by, kwargs') =>
      match dict_pop kwargs' "leader" with
      | Ok (leader, kwargs'') =>
          let base := ModelForm_init E args kwargs'' in
          Ok (mkForm (setattr (setattr (self_attrs base) "created_by" created_by)
                              "leader" leader)
                     (form_instance base) (cleaned_data base) (errors base))
      | Raise e => Raise e
      end
  | Raise e => Raise e
  end.

Definition AddMeetupForm_save (self : Form) (commit : bool) : M dict :=
  instance <- ModelForm_save AddMeetupForm self false ;;
  created_by <- lift (getattr (self_attrs self) "created_by") ;;
  su <- SystersUser_objects_get created_by ;;
  let instance := setattr instance "created_by" su in
  created_by' <- lift (getattr (self_attrs self) "created_by") ;;
  su' <- SystersUser_objects_get created_by' ;;
  let instance := setattr instance "leader" su' in
  is_virtual <- lift (getattr instance "is_virtual") ;;
  instance <-
    (if truthy is_virtual then
       meet_data <- create_meetup instance ;;
       join_url <- lift (dict_item meet_data "join_url") ;;
       let instance := setattr instance "meet_link" join_url in
       start_url <- lift (dict_item meet_data "start_url") ;;
       let instance := setattr instance "start_url" start_url in
       id <- lift (dict_item meet_data "id") ;;
       ret (setattr instance "meeting_id" id)
     else ret instance) ;;
  instance <-
    (if commit then Model_save (Meta_model AddMeetupForm) instance
     else ret instance) ;;
  save_images self instance ;;;
  ret instance.

Definition AddMeetupForm_clean_date (self : Form) : M value :=
  let date := dict_get (cleaned_data self) "date" in
  now <- timezone_now ;;
  past <- lift (py_lt date (VDate (dt_date now))) ;;
  if past then
    raise (ValidationError "Date should not be before today's date." None)
  else ret date.

Definition AddMeetupForm_clean_time (self : Form) : M value :=
  let time := dict_get (cleaned_data self) "time" in
  let date := dict_get (cleaned_data self) "date" in
  if truthy time then
    now <- timezone_now ;;
    if py_eq date (VDate (dt_date now)) then
      now' <- timezone_now ;;
      past <- lift (py_lt time (VTime (dt_time now'))) ;;
      if past then
        raise (ValidationError "Time should not be a time that has already passed."
                               None)
      else ret time
    else ret time
  else ret time.

(** ** EditMeetupForm: no [__init__], no [clean_date], no [clean_time] *)

Definition EditMeetupForm_save (self : Form) (commit : bool) : M dict :=
  instance <- ModelForm_save EditMeetupForm self commit ;;
  MeetupImages_delete_of instance ;;;
  save_images self instance ;;;
  is_virtual <- lift (getattr instance "is_virtual") ;;
  if truthy is_virtual then
    edit_meetup instance ;;;
    meet_data <- get_meetup instance ;;
    join_url <- lift (dict_item meet_data "join_url") ;;
    let instance := setattr instance "meet_link" join_url in
    start_url <- lift (dict_item meet_data "start_url") ;;
    let instance := setattr instance "start_url" start_url in
    id <- lift (dict_item meet_data "id") ;;
    ret (setattr instance "meeting_id" id)
  else ret instance.

(** ** Comment forms *)

Definition AddMeetupCommentForm_init (args : list value) (kwargs : dict) : result Form :=
  match dict_pop kwargs "content_object" with
  | Ok (content_object, kwargs') =>
      match dict_pop kwargs' "author" with
      | Ok (author, kwargs'') =>
          let base := ModelForm_init E args kwargs'' in
          Ok (mkForm (setattr (setattr (self_attrs base) "content_object" content_object)
                              "author" author)
                     (form_instance base) (cleaned_data base) (errors base))
      | Raise e => Raise e
      end
  | Raise e => Raise e
  end.

Definition AddMeetupCommentForm_save (self : Form) (commit : bool) : M dict :=
  instance <- ModelForm_save AddMeetupCommentForm self false ;;
  content_object <- lift (getattr (self_attrs self) "content_object") ;;
  let instance := setattr instance "content_object" content_object in
  author <- lift (getattr (self_attrs self) "author") ;;
  su <- SystersUser_objects_get author ;;
  let instance := setattr instance "author" su in
  if commit then Model_save (Meta_model AddMeetupCommentForm) instance
  else ret instance.

Definition AddSupportRequestCommentForm_init (args : list value) (kwargs : dict) : result Form :=
  match dict_pop kwargs "content_object" with
  | Ok (content_object, kwargs') =>
      match dict_pop kwargs' "author" with
      | Ok (author, kwargs'') =>
          let base := ModelForm_init E args kwargs'' in
          Ok (mkForm (setattr (setattr (self_attrs base) "content_object" content_object)
                              "author" author)
                     (form_instance base) (cleaned_data base) (errors base))
      | Raise e => Raise e
      end
  | Raise e => Raise e
  end.

Definition AddSupportRequestCommentForm_save (self : Form) (commit : bool) : M dict :=
  instance <- ModelForm_save AddSupportRequestCommentForm self false ;;
  content_object <- lift (getattr (self_attrs self) "content_object") ;;
  let instance := setattr instance "content_object" content_object in
  author <- lift (getattr (self_attrs self) "author") ;;
  su <- SystersUser_objects_get author ;;
  let instance := setattr instance "author" su in
  if commit then Model_save (Meta_model AddSupportRequestCommentForm) instance
  else ret instance.

(** ** RsvpForm *)

Definition RsvpForm_init (args : list value) (kwargs : dict) : result Form :=
  match dict_pop kwargs "user" with
  | Ok (user, kwargs') =>
      match dict_pop kwargs' "meetup" with
      | Ok (meetup, kwargs'') =>
          let base := ModelForm_init E args kwargs'' in
          Ok (mkForm (setattr (setattr (self_attrs base) "user" user)
                              "meetup" meetup)
                     (form_instance base) (cleaned_data base) (errors base))
      | Raise e => Raise e
      end
  | Raise e => Raise e
  end.

Definition RsvpForm_save (self : Form) (commit : bool) : M dict :=
  instance <- ModelForm_save RsvpForm self false ;;
  user <- lift (getattr (self_attrs self) "user") ;;
  su <- SystersUser_objects_get user ;;
  let instance := setattr instance "user" su in
  meetup <- lift (getattr (self_attrs self) "meetup") ;;
  let instance := setattr instance "meetup" meetup in
  if commit then Model_save (Meta_model RsvpForm) instance
  else ret instance.

(** ** AddSupportRequestForm *)

Definition AddSupportRequestForm_init (args : list value) (kwargs : dict) : result Form :=
  match dict_pop kwargs "volunteer" with
  | Ok (volunteer, kwargs') =>
      match dict_pop kwargs' "meetup" with
      | Ok (meetup, kwargs'') =>
          let base := ModelForm_init E args kwargs'' in
          Ok (mkForm (setattr (setattr (self_attrs base) "volunteer" volunteer)
                              "meetup" meetup)
                     (form_instance base) (cleaned_data base) (errors base))
      | Raise e => Raise e
      end
  | Raise e => Raise e
  end.

Definition AddSupportRequestForm_save (self : Form) (commit : bool) : M dict :=
  instance <- ModelForm_save AddSupportRequestForm self false ;;
  volunteer <- lift (getattr (self_attrs self) "volunteer") ;;
  su <- SystersUser_objects_get volunteer ;;
  let instance := setattr instance "volunteer" su in
  meetup <- lift (getattr (self_attrs self) "meetup") ;;
  let instance := setattr instance "meetup" meetup in
  if commit then Model_save (Meta_model AddSupportRequestForm) instance
  else ret instance.

(** ** PastMeetup *)

Definition PastMeetup_save (self : Form) (commit : bool) : M dict :=
  instance <- ModelForm_save PastMeetup self commit ;;
  save_images self instance ;;;
  ret instance.

(** ** RequestVirtualMeetupForm *)

Definition RequestVirtualMeetupForm_init (args : list value) (kwargs : dict) : result Form :=
  match dict_pop kwargs "created_by" with
  | Ok (user, kwargs') =>
      let base := ModelForm_init E args kwargs' in
      Ok (mkForm (setattr (self_attrs base) "user" user)
                 (form_instance base) (cleaned_data base) (errors base))
  | Raise e => Raise e
  end.

Definition RequestVirtualMeetupForm_save (self : Form) (commit : bool) : M dict :=
  instance <- ModelForm_save RequestVirtualMeetupForm self false ;;
  user <- lift (getattr (self_attrs self) "user") ;;
  su <- SystersUser_objects_get user ;;
  let instance := setattr instance "created_by" su in
  let instance := setattr instance "is_virtual" (VBool true) in
  if commit then Model_save (Meta_model RequestVirtualMeetupForm) instance
  else ret instance.

Definition RequestVirtualMeetupForm_clean_date (self : Form) : M value :=
  let date := dict_get (cleaned_data self) "date" in
  now <- timezone_now ;;
  past <- lift (py_lt date (VDate (dt_date now))) ;;
  if past then
    raise (ValidationError "Date should not be before today's date."
                           (Some "date_in_past"))
  else ret date.

Definition RequestVirtualMeetupForm_clean_time (self : Form) : M value :=
  let time := dict_get (cleaned_data self) "time" in
  let date := dict_get (cleaned_data self) "date" in
  if truthy time then
    now <- timezone_now ;;
    if py_eq date (VDate (dt_date now)) then
      now' <- timezone_now ;;
      past <- lift (py_lt time (VTime (dt_time now'))) ;;
      if past then
        raise (ValidationError "Time should not be a time that has already passed."
                               (Some "time_in_past"))
      else ret time
    else ret time
  else ret time.

(** ** Method resolution *)

(** [form.save(commit)]: the class's own [save] when it defines one, the
    inherited [ModelForm.save] otherwise. *)
Definition save (c : FormClass) (self : Form) (commit : bool) : M dict :=
  match c with
  | RequestMeetupForm => RequestMeetupForm_save self commit
  | AddMeetupForm => AddMeetupForm_save self commit
  | EditMeetupForm => EditMeetupForm_save self commit
  | AddMeetupCommentForm => AddMeetupCommentForm_save self commit
  | RsvpForm => RsvpForm_save self commit
  | AddSupportRequestForm => AddSupportRequestForm_save self commit
  | AddSupportRequestCommentForm => AddSupportRequestCommentForm_save self commit
  | PastMeetup => PastMeetup_save self commit
  | RequestVirtualMeetupForm => RequestVirtualMeetupForm_save self commit
  | EditMeetupCommentForm | EditSupportRequestForm
  | EditSupportRequestCommentForm => ModelForm_save c self commit
  end.

(** [getattr(self, 'clean_%s' % name)] when [hasattr] says it exists: the
    module defines only [clean_date] and [clean_time], in three classes. *)
Definition clean_hook (c : FormClass) (name : string) : option (Form -> M value) :=
  match c with
  | RequestMeetupForm =>
      if String.eqb name "date" then Some RequestMeetupForm_clean_date
      else if String.eqb name "time" then Some RequestMeetupForm_clean_time
      else None
  | AddMeetupForm =>
      if String.eqb name "date" then Some AddMeetupForm_clean_date
      else if String.eqb name "time" then Some AddMeetupForm_clean_time
      else None
  | RequestVirtualMeetupForm =>
      if String.eqb name "date" then Some RequestVirtualMeetupForm_clean_date
      else if String.eqb name "time" then Some RequestVirtualMeetupForm_clean_time
      else None
  | _ => None
  end.

(** ** Validation *)

(** [self.add_error(name, e)]: the error is recorded and the field leaves
    the cleaned data. *)
Definition add_error (self : Form) (name : string) (e : exn) : Form :=
  mkForm (self_attrs self) (form_instance self)
         (delete name (cleaned_data self)) (errors self ++ [(name, e)]).

Definition set_cleaned (self : Form) (name : string) (v : value) : Form :=
  mkForm (self_attrs self) (form_instance self)
         (<[name := v]> (cleaned_data self)) (errors self).

(** One turn of the loop of Django's [BaseForm._clean_fields]:
    [[
      try:
          value = field.clean(value)
          self.cleaned_data[name] = value
          if hasattr(self, 'clean_%s' % name):
              value = getattr(self, 'clean_%s' % name)()
              self.cleaned_data[name] = value
      except ValidationError as e:
          self.add_error(name, e)
    ]]
    [parsed name] is the outcome of [field.clean(value)]. *)
Definition clean_field (c : FormClass) (parsed : string -> result value)
    (self : Form) (name : string) : M Form :=
  fun w =>
    match parsed name with
    | Raise (ValidationError m code) =>
        (Ok (add_error self name (ValidationError m code)), w)
    | Raise e => (Raise e, w)
    | Ok v =>
        let self1 := set_cleaned self name v in
        match clean_hook c name with
        | None => (Ok self1, w)
        | Some hook =>
            match hook self1 w with
            | (Ok v', w') => (Ok (set_cleaned self1 name v'), w')
            | (Raise (ValidationError m code), w') =>
                (Ok (add_error self1 name (ValidationError m code)), w')
            | (Raise e, w') => (Raise e, w')
            end
        end
    end.

Fixpoint clean_fields_loop (c : FormClass) (parsed : string -> result value)
    (names : list string) (self : Form) : M Form :=
  match names with
  | [] => ret self
  | name :: names' =>
      self' <- clean_field c parsed self name ;;
      clean_fields_loop c parsed names' self'
  end.

(** [full_clean] up to the end of [_clean_fields]: the cleaned data and
    the errors start empty, then every field of the form is cleaned in
    order. *)
Definition clean_fields (c : FormClass) (parsed : string -> result value)
    (self : Form) : M Form :=
  clean_fields_loop c parsed (form_fields c)
    (mkForm (self_attrs self) (form_instance self) ∅ []).

(** [form.is_valid()] as far as the fields go: no error was recorded. *)
Definition accepted (r : result Form * World) : bool :=
  match fst r with
  | Ok self => match errors self with [] => true | _ => false end
  | Raise _ => false
  end.

End Forms.

(** ** What the claims speak of *)

(** The ownership and foreign-key attributes that the save hooks assign. *)
Definition ownership_fields : list string :=
  ["created_by"; "leader"; "author"; "user"; "volunteer"; "meetup";
   "content_object"].

(** Where a save hook takes a stamped value from: an attribute of the form,
    taken as it is or looked up in [SystersUser]. *)
Inductive stamp_source :=
| FromAttr (attr : string)
| FromSystersUser (attr : string).

Definition stamp_value (E : Env) (self : Form) (s : stamp_source) : option value :=
  match s with
  | FromAttr attr => self_attrs self !! attr
  | FromSystersUser attr =>
      match self_attrs self !! attr with
      | Some u => systers_user E u
      | None => None
      end
  end.

(** The ownership attributes that each class's [save] assigns, in order. *)
Definition stamped (c : FormClass) : list (string * stamp_source) :=
  match c with
  | RequestMeetupForm | RequestVirtualMeetupForm =>
      [("created_by", FromSystersUser "user")]
  | AddMeetupForm =>
      [("created_by", FromSystersUser "created_by");
       ("leader", FromSystersUser "created_by")]
  | AddMeetupCommentForm | AddSupportRequestCommentForm =>
      [("content_object", FromAttr "content_object");
       ("author", FromSystersUser "author")]
  | RsvpForm =>
      [("user", FromSystersUser "user"); ("meetup", FromAttr "meetup")]
  | AddSupportRequestForm =>
      [("volunteer", FromSystersUser "volunteer"); ("meetup", FromAttr "meetup")]
  | EditMeetupForm | EditMeetupCommentForm | EditSupportRequestForm
  | EditSupportRequestCommentForm | PastMeetup => []
  end.

(** The instance [inst] is in the database as a row of model [model]. *)
Definition persisted (w : World) (model : string) (inst : dict) : Prop :=
  exists pk, pk_of inst = Some pk /\ rows w !! (model, pk) = Some inst.

(** A class stamps ownership before persisting when some run of its
    [save] with [commit=True] persists a row in which an ownership
    attribute differs from the one the form's instance came with. *)
Definition stamps_ownership (c : FormClass) : Prop :=
  exists (E : Env) (self : Form) (w w' : World) (inst : dict) (f : string),
    f ∈ ownership_fields /\
    save E c self true w = (Ok inst, w') /\
    persisted w' (Meta_model c) inst /\
    inst !! f <> form_instance self !! f.

(** A clock that stands still at [now]. *)
Definition frozen (E : Env) (now : datetime) : Prop :=
  forall n, clock E n = now.

(** A submission is subject to the temporal validation when, whatever
    else it holds, a date before today and a time already passed today
    are not accepted. *)
Definition temporal_validation (c : FormClass) : Prop :=
  forall (E : Env) (now : datetime) (parsed : string -> result value)
         (self : Form) (w : World) (d : date) (t : time),
    frozen E now ->
    (forall name, exists v, parsed name = Ok v) ->
    parsed "date" = Ok (VDate d) ->
    parsed "time" = Ok (VTime t) ->
    date_ltb d (dt_date now) = true
    \/ (d = dt_date now /\ time_ltb t (dt_time now) = true) ->
    accepted (clean_fields E c parsed self w) = false.

(** The outcome of a computation is a [ValidationError]. *)
Definition raises_validation {A} (r : result A * World) : Prop :=
  exists m code, fst r = Raise (ValidationError m code).

(** The classes that validate the date and the time. *)
Definition temporal_forms : list FormClass :=
  [RequestMeetupForm; AddMeetupForm; RequestVirtualMeetupForm].

(** A small environment for running the forms on concrete inputs: the
    clock stands at 2024-05-10 12:30:00, user 1 is the SystersUser 7, the
    provider answers every call with the same meeting, and the framework
    gives every constructor the same blank form. *)
Definition sample_now : datetime :=
  mkDatetime (mkDate 2024 5 10) (mkTime 12 30 0 0).

Definition sample_meeting : dict :=
  <["join_url" := VStr "https://meet/j/42"]>
    (<["start_url" := VStr "https://meet/s/42"]>
       (<["id" := VInt 42]> ∅)).

(** A valid form around a new in-person instance, with no image
    submitted. *)
Definition blank_form : Form :=
  mkForm ∅ (<["is_virtual" := VBool false]> ∅) (<["images" := VNone]> ∅) [].

Definition sample_env : Env :=
  mkEnv (fun _ => sample_now)
        (fun u => match u with
                  | VObj "User" 1 => Some (VObj "SystersUser" 7)
                  | _ => None
                  end)
        (fun _ _ => Ok sample_meeting)
        (fun _ _ => blank_form).

Definition empty_world : World := mkWorld ∅ [] [] 1 0.

(** The files of a cleaned [MultiFileField] value, and the [MeetupImages]
    rows that the images loop creates from it for the meetup [pk]. *)
Definition files_of (v : value) : list string :=
  match v with
  | VFiles fs => fs
  | _ => []
  end.

Definition image_rows (v : value) (pk : Z) : list (string * Z) :=
  map (fun img => (img, pk)) (files_of v).

(** The world after one more call to the provider. *)
Definition called (w : World) (c : call) : World :=
  mkWorld (rows w) (images w) (calls w ++ [c]) (next_pk w) (ticks w).

(** The instance after the two ownership assignments of
    [AddMeetupForm.save]. *)
Definition with_owner (su : value) (inst : dict) : dict :=
  <["leader" := su]> (<["created_by" := su]> inst).

(** The instance after the three assignments from the provider's answer. *)
Definition with_meeting (join_url start_url id : value) (inst : dict) : dict :=
  <["meeting_id" := id]>
    (<["start_url" := start_url]> (<["meet_link" := join_url]> inst)).

(** The [MeetupImages] rows of the meetup [pk]. *)
Definition images_of (w : World) (pk : Z) : list (string * Z) :=
  filter (fun r => snd r = pk) (images w).

(** An edit of the virtual meetup 5, whose row holds the link of an
    earlier meeting, with no image submitted. *)
Definition edited_meetup : dict :=
  <["id" := VInt 5]>
    (<["is_virtual" := VBool true]>
       (<["meet_link" := VStr "https://meet/j/old"]> ∅)).

Definition edit_form : Form :=
  mkForm ∅ edited_meetup (<["images" := VNone]> ∅) [].


(** A form that holds every argument a constructor of the module stores,
    all naming user 1 and meetup 3, around a new in-person instance. *)
Definition sample_form : Form :=
  mkForm (<["user" := VObj "User" 1]>
            (<["created_by" := VObj "User" 1]>
               (<["author" := VObj "User" 1]>
                  (<["volunteer" := VObj "User" 1]>
                     (<["content_object" := VObj "Meetup" 3]>
                        (<["meetup" := VObj "Meetup" 3]> ∅))))))
         (<["is_virtual" := VBool false]> ∅)
         (<["images" := VNone]> ∅) [].

(** The world after one more reading of the clock. *)
Definition tick (w : World) : World :=
  mkWorld (rows w) (images w) (calls w) (next_pk w) (S (ticks w)).

(** The world after [EditMeetupForm.save(commit=True)] has written the row
    of the meetup [pk] and replaced its images. *)
Definition edited (w : World) (pk : Z) (inst : dict) (v : value) : World :=
  mkWorld (<[("Meetup", pk) := inst]> (rows w))
          (filter (fun r => Some (snd r) <> Some pk) (images w)
           ++ image_rows v pk)
          (calls w) (next_pk w) (ticks w).

(** ** Constructors *)

(** Building a form from positional and keyword arguments: the class's
    own [__init__] when it defines one, the inherited constructor
    otherwise. *)
Definition form_init (E : Env) (c : FormClass) (args : list value)
    (kwargs : dict) : result Form :=
  match c with
  | RequestMeetupForm => RequestMeetupForm_init E args kwargs
  | AddMeetupForm => AddMeetupForm_init E args kwargs
  | AddMeetupCommentForm => AddMeetupCommentForm_init E args kwargs
  | RsvpForm => RsvpForm_init E args kwargs
  | AddSupportRequestForm => AddSupportRequestForm_init E args kwargs
  | AddSupportRequestCommentForm => AddSupportRequestCommentForm_init E args kwargs
  | RequestVirtualMeetupForm => RequestVirtualMeetupForm_init E args kwargs
  | EditMeetupForm | EditMeetupCommentForm | EditSupportRequestForm
  | EditSupportRequestCommentForm | PastMeetup => Ok (ModelForm_init E args kwargs)
  end.




(** The keyword argument that names the user whose [SystersUser] the
    class's [save] looks up. *)
Definition user_kwarg (c : FormClass) : option string :=
  match c with
  | RequestMeetupForm | RequestVirtualMeetupForm | AddMeetupForm =>
      Some "created_by"
  | AddMeetupCommentForm | AddSupportRequestCommentForm => Some "author"
  | RsvpForm => Some "user"
  | AddSupportRequestForm => Some "volunteer"
  | EditMeetupForm | EditMeetupCommentForm | EditSupportRequestForm
  | EditSupportRequestCommentForm | PastMeetup => None
  end.

(** The [code] of the ValidationError of each [clean_date]:
    [AddMeetupForm] gives none. *)
Definition date_error_code (c : FormClass) : option string :=
  match c with
  | AddMeetupForm => None
  | _ => Some "date_in_past"
  end.

(** Two worlds with the same database and the same provider log: they
    differ at most in the readings of the clock. *)
Definition same_store (w w' : World) : Prop :=
  rows w' = rows w /\ images w' = images w /\ calls w' = calls w
  /\ next_pk w' = next_pk w.

(** A submission of a time only, and one of a future date. *)
Definition sample_submission (d : date) (t : time) (name : string) : result value :=
  if String.eqb name "date" then Ok (VDate d)
  else if String.eqb name "time" then Ok (VTime t)
  else Ok (VStr "text").

(** The sample environment with the provider out of reach. *)
Definition offline_env : Env :=
  mkEnv (clock sample_env) (systers_user sample_env)
        (fun _ _ => Raise (ProviderError "offline"))
        (ModelForm_init sample_env).

(** A valid form for a new virtual meetup created by user 1. *)
Definition virtual_form : Form :=
  mkForm (<["created_by" := VObj "User" 1]> ∅)
         (<["is_virtual" := VBool true]> ∅)
         (<["images" := VNone]> ∅) [].

(** * Properties *)

(** ** The orders on dates and times *)

Lemma date_ltb_irrefl (a : date) : date_ltb a a = false.
Proof. unfold date_ltb. destruct a as [y m d]; simpl. lia. Qed.

Lemma date_ltb_trans (a b c : date) :
  date_ltb a b = true -> date_ltb b c = true -> date_ltb a c = true.
Proof. unfold date_ltb. destruct a, b, c; simpl. lia. Qed.

Lemma date_ltb_total (a b : date) :
  date_ltb a b = true \/ a = b \/ date_ltb b a = true.
Proof.
  unfold date_ltb. destruct a as [y m d], b as [y' m' d']; simpl.
  destruct (Z.lt_total y y') as [|[->|]]; [left; lia| |right; right; lia].
  destruct (Z.lt_total m m') as [|[->|]]; [left; lia| |right; right; lia].
  destruct (Z.lt_total d d') as [|[->|]]; [left; lia| |right; right; lia].
  right; left; reflexivity.
Qed.

Lemma time_ltb_irrefl (a : time) : time_ltb a a = false.
Proof. unfold time_ltb. destruct a; simpl. lia. Qed.

Lemma time_ltb_trans (a b c : time) :
  time_ltb a b = true -> time_ltb b c = true -> time_ltb a c = true.
Proof. unfold time_ltb. destruct a, b, c; simpl. lia. Qed.

(** ** Date validation *)

Lemma clean_date_hooks (E : Env) (c : FormClass) (hook : Form -> M value) :
  c ∈ temporal_forms ->
  clean_hook E c "date" = Some hook ->
  exists code, forall self w,
    hook self w =
    bind (timezone_now E)
         (fun now =>
            bind (lift (py_lt (dict_get (cleaned_data self) "date")
                              (VDate (dt_date now))))
                 (fun past : bool =>
                    if past then
                      raise (ValidationError
                               "Date should not be before today's date." code)
                    else ret (dict_get (cleaned_data self) "date"))) w.
Proof.
  unfold temporal_forms. intros Hc Hh.
  repeat (apply elem_of_cons in Hc as [-> | Hc]);
    [| | | by apply elem_of_nil in Hc];
    simpl in Hh; injection Hh as <-; eexists; intros; reflexivity.
Qed.

(** C1. In RequestMeetupForm, AddMeetupForm and RequestVirtualMeetupForm,
    [clean_date] on a submitted date [d] raises a ValidationError if and
    only if [d] is strictly before the date of [timezone.now()]; otherwise
    it returns [d] unchanged. *)
Theorem clean_date_rejects_exactly_past_dates
    (E : Env) (c : FormClass) (hook : Form -> M value)
    (self : Form) (w : World) (d : date) :
  c ∈ temporal_forms ->
  clean_hook E c "date" = Some hook ->
  cleaned_data self !! "date" = Some (VDate d) ->
  let today := dt_date (clock E (ticks w)) in
  (raises_validation (hook self w) <-> date_ltb d today = true)
  /\ (date_ltb d today = false -> fst (hook self w) = Ok (VDate d)).
Proof.
  intros Hc Hh Hd today.
  destruct (clean_date_hooks E c hook Hc Hh) as [code Heq].
  rewrite Heq. unfold bind, timezone_now, lift, dict_get, raise, ret.
  rewrite Hd. simpl. fold today.
  destruct (date_ltb d today); simpl; (split; [split |]).
  - reflexivity.
  - intros _. by eexists _, _.
  - discriminate.
  - intros (m & k & H); discriminate.
  - discriminate.
  - reflexivity.
Qed.

Lemma clean_date_rejects_exactly_past_dates_witness :
  let self := mkForm ∅ ∅ (<["date" := VDate (mkDate 2024 5 9)]> ∅) [] in
  (raises_validation (AddMeetupForm_clean_date sample_env self empty_world)
   <-> date_ltb (mkDate 2024 5 9) (mkDate 2024 5 10) = true)
  /\ (date_ltb (mkDate 2024 5 9) (mkDate 2024 5 10) = false ->
      fst (AddMeetupForm_clean_date sample_env self empty_world)
      = Ok (VDate (mkDate 2024 5 9))).
Proof.
  intros self.
  apply (clean_date_rejects_exactly_past_dates
           sample_env AddMeetupForm _ self empty_world (mkDate 2024 5 9)).
  - unfold temporal_forms. repeat constructor.
  - reflexivity.
  - reflexivity.
Defined.

(** Without a date in the cleaned data, [None < date] is a TypeError. *)
Remark clean_date_without_date (E : Env) (self : Form) (w : World) :
  cleaned_data self !! "date" = None ->
  fst (RequestMeetupForm_clean_date E self w) = Raise TypeError.
Proof.
  intros Hd. unfold RequestMeetupForm_clean_date, bind, timezone_now, lift, dict_get.
  rewrite Hd. reflexivity.
Qed.

(** ** Time validation *)

Lemma clean_time_hooks (E : Env) (c : FormClass) (hook : Form -> M value) :
  c ∈ temporal_forms ->
  clean_hook E c "time" = Some hook ->
  exists code, forall self w,
    hook self w =
    (let time := dict_get (cleaned_data self) "time" in
     let date := dict_get (cleaned_data self) "date" in
     if truthy time then
       bind (timezone_now E)
            (fun now =>
               if py_eq date (VDate (dt_date now)) then
                 bind (timezone_now E)
                      (fun now' =>
                         bind (lift (py_lt time (VTime (dt_time now'))))
                              (fun past : bool =>
                                 if past then
                                   raise (ValidationError
                                            "Time should not be a time that has already passed."
                                            code)
                                 else ret time))
               else ret time)
     else ret time) w.
Proof.
  unfold temporal_forms. intros Hc Hh.
  repeat (apply elem_of_cons in Hc as [-> | Hc]);
    [| | | by apply elem_of_nil in Hc];
    simpl in Hh; injection Hh as <-; eexists; intros; reflexivity.
Qed.

(** C2. In RequestMeetupForm, AddMeetupForm and RequestVirtualMeetupForm,
    [clean_time] on a present time [t] raises a ValidationError if and only
    if the cleaned date equals the date of [timezone.now()] and [t] is
    strictly before the time of [timezone.now()] (the second reading of the
    clock); otherwise it returns [t].  A date after today accepts every
    time, and an absent time raises nothing. *)
Theorem clean_time_rejects_exactly_passed_times_today
    (E : Env) (c : FormClass) (hook : Form -> M value)
    (self : Form) (w : World) :
  c ∈ temporal_forms ->
  clean_hook E c "time" = Some hook ->
  let today := dt_date (clock E (ticks w)) in
  let now_time := dt_time (clock E (S (ticks w))) in
  (forall t, cleaned_data self !! "time" = Some (VTime t) ->
     (raises_validation (hook self w) <->
      dict_get (cleaned_data self) "date" = VDate today
      /\ time_ltb t now_time = true)
     /\ (~ raises_validation (hook self w) -> fst (hook self w) = Ok (VTime t))
     /\ (forall d, cleaned_data self !! "date" = Some (VDate d) ->
           date_ltb today d = true -> fst (hook self w) = Ok (VTime t)))
  /\ (dict_get (cleaned_data self) "time" = VNone ->
      hook self w = (Ok VNone, w)).
Proof.
  intros Hc Hh today now_time.
  destruct (clean_time_hooks E c hook Hc Hh) as [code Heq].
  rewrite Heq. clear Heq. split.
  - intros t Ht.
    assert (Hg : dict_get (cleaned_data self) "time" = VTime t)
      by (unfold dict_get; rewrite Ht; reflexivity).
    cbv zeta. rewrite !Hg.
    subst today now_time. cbn.
    unfold bind, timezone_now, lift, raise, ret, py_eq. cbn.
    case_bool_decide as Hd; cbn.
    + destruct (time_ltb t _) eqn:Hlt; cbn.
      * split; [split |split].
        -- intros _. split; [exact Hd | reflexivity].
        -- intros _. by eexists _, _.
        -- intros Hn. exfalso. apply Hn. by eexists _, _.
        -- intros d Hd' Hlt'. unfold dict_get in Hd. rewrite Hd' in Hd.
           injection Hd as ->. rewrite date_ltb_irrefl in Hlt'. discriminate.
      * split; [split | split].
        -- intros (m & k & H). discriminate.
        -- intros [_ H]. discriminate.
        -- reflexivity.
        -- reflexivity.
    + split; [split | split].
      * intros (m & k & H). discriminate.
      * intros [H _]. contradiction.
      * reflexivity.
      * reflexivity.
  - intros Hn. simpl. rewrite Hn. reflexivity.
Qed.

Lemma clean_time_rejects_exactly_passed_times_today_witness :
  let self :=
    mkForm ∅ ∅ (<["date" := VDate (mkDate 2024 5 10)]>
                  (<["time" := VTime (mkTime 12 0 0 0)]> ∅)) [] in
  raises_validation (RequestMeetupForm_clean_time sample_env self empty_world).
Proof.
  intros self.
  destruct (clean_time_rejects_exactly_passed_times_today
              sample_env RequestMeetupForm
              (RequestMeetupForm_clean_time sample_env) self empty_world)
    as [H _].
  - unfold temporal_forms. repeat constructor.
  - reflexivity.
  - destruct (H (mkTime 12 0 0 0)) as [[_ H2] _].
    + reflexivity.
    + apply H2. split; reflexivity.
Defined.

(** ** Running computations *)

Lemma bind_ok {A B} (m : M A) (k : A -> M B) (w w' : World) (b : B) :
  bind m k w = (Ok b, w') ->
  exists a w1, m w = (Ok a, w1) /\ k a w1 = (Ok b, w').
Proof.
  unfold bind. destruct (m w) as [[a | e] w1]; [eauto | discriminate].
Qed.

Lemma lift_ok {A} (r : result A) (w w' : World) (a : A) :
  lift r w = (Ok a, w') -> r = Ok a /\ w' = w.
Proof. unfold lift. intros [= -> ->]. done. Qed.

Lemma ret_ok {A} (x a : A) (w w' : World) :
  ret x w = (Ok a, w') -> a = x /\ w' = w.
Proof. unfold ret. intros [= -> ->]. done. Qed.

Lemma getattr_ok (o : dict) (name : string) (v : value) :
  getattr o name = Ok v -> o !! name = Some v.
Proof. unfold getattr. destruct (o !! name); intros [=]; congruence. Qed.

Lemma dict_item_ok (d : dict) (k : string) (v : value) :
  dict_item d k = Ok v -> d !! k = Some v.
Proof. unfold dict_item. destruct (d !! k); intros [=]; congruence. Qed.

Lemma SystersUser_objects_get_ok (E : Env) (u su : value) (w w' : World) :
  SystersUser_objects_get E u w = (Ok su, w') ->
  systers_user E u = Some su /\ w' = w.
Proof.
  unfold SystersUser_objects_get.
  destruct (systers_user E u); [intros [= -> ->]; done | discriminate].
Qed.

(** [instance.save()] always succeeds; it touches the rows and the key
    counter only, and what it returns is the row it wrote. *)
Lemma Model_save_ok (model : string) (i inst : dict) (w w' : World) :
  Model_save model i w = (Ok inst, w') ->
  persisted w' model inst
  /\ (forall f, f <> "id" -> inst !! f = i !! f)
  /\ (forall pk, pk_of i = Some pk -> inst = i)
  /\ images w' = images w /\ calls w' = calls w /\ ticks w' = ticks w.
Proof.
  unfold Model_save, persisted.
  destruct (pk_of i) as [pk |] eqn:Hpk; intros [= <- <-]; simpl.
  - split; [exists pk; split; [done | apply lookup_insert_eq] |].
    repeat split; done.
  - split.
    + exists (next_pk w). split; [| apply lookup_insert_eq].
      unfold pk_of, setattr. by rewrite lookup_insert_eq.
    + repeat split; try done.
      intros f Hf. unfold setattr. by rewrite lookup_insert_ne.
Qed.

Lemma Model_save_total (model : string) (i : dict) (w : World) :
  exists inst w', Model_save model i w = (Ok inst, w').
Proof. unfold Model_save. destruct (pk_of i); eauto. Qed.

Lemma ModelForm_save_ok (c : FormClass) (self : Form) (commit : bool)
    (inst : dict) (w w' : World) :
  ModelForm_save c self commit w = (Ok inst, w') ->
  errors self = []
  /\ (if commit then Model_save (Meta_model c) (form_instance self) w = (Ok inst, w')
      else inst = form_instance self /\ w' = w).
Proof.
  unfold ModelForm_save. destruct (errors self); [| discriminate].
  destruct commit; [done |]. intros H%ret_ok. done.
Qed.

(** The images loop on an instance with primary key [pk] appends one row
    per file. *)
Lemma for_each_create (imgs : list string) (inst : dict) (pk : Z) (w : World) :
  pk_of inst = Some pk ->
  for_each imgs (fun img => MeetupImages_create img inst) w =
  (Ok tt, mkWorld (rows w) (images w ++ map (fun img => (img, pk)) imgs)
                  (calls w) (next_pk w) (ticks w)).
Proof.
  intros Hpk. revert w. induction imgs as [| img imgs IH]; intros w; simpl.
  - unfold ret. rewrite app_nil_r. by destruct w.
  - unfold bind, MeetupImages_create at 1. rewrite Hpk, IH. simpl.
    by rewrite <- app_assoc.
Qed.

(** On an instance that was never saved the loop fails at the first file
    and creates nothing. *)
Lemma for_each_create_unsaved (imgs : list string) (inst : dict) (w : World) :
  pk_of inst = None ->
  for_each imgs (fun img => MeetupImages_create img inst) w =
  match imgs with
  | [] => (Ok tt, w)
  | _ :: _ => (Raise ValueError, w)
  end.
Proof.
  intros Hpk. destruct imgs as [| img imgs]; simpl; [done |].
  unfold bind, MeetupImages_create. by rewrite Hpk.
Qed.

Lemma provider_call_ok (E : Env) (c : call) (md : dict) (w w' : World) :
  provider_call E c w = (Ok md, w') ->
  provider E (calls w) c = Ok md /\ w' = called w c.
Proof. unfold provider_call, called. intros [= -> <-]. done. Qed.

(** Peels a successful run apart, one statement at a time. *)
Ltac inv_run :=
  repeat match goal with
    | H : bind _ _ _ = (Ok _, _) |- _ =>
        let a := fresh "a" in
        let w1 := fresh "w" in
        let H1 := fresh "Hrun" in
        apply bind_ok in H as (a & w1 & H1 & H)
    | H : lift _ _ = (Ok _, _) |- _ => apply lift_ok in H as [H ->]
    | H : ret _ _ = (Ok _, _) |- _ => apply ret_ok in H as [-> ->]
    | H : getattr _ _ = Ok _ |- _ => apply getattr_ok in H
    | H : dict_item _ _ = Ok _ |- _ => apply dict_item_ok in H
    | H : SystersUser_objects_get _ _ _ = (Ok _, _) |- _ =>
        apply SystersUser_objects_get_ok in H as [H ->]
    | H : ModelForm_save _ _ false _ = (Ok _, _) |- _ =>
        apply ModelForm_save_ok in H as [? [-> ->]]
    | H : provider_call _ _ _ = (Ok _, _) |- _ =>
        apply provider_call_ok in H as [H ->]
    end.

(** The stamping saves share one shape: take the instance without
    committing, assign attributes, then save when [commit]. *)
Lemma commit_ok (model : string) (commit : bool) (i inst : dict) (w w' : World) :
  (if commit then Model_save model else ret) i w = (Ok inst, w') ->
  (commit = true -> persisted w' model inst)
  /\ (forall f, f <> "id" -> inst !! f = i !! f)
  /\ images w' = images w /\ calls w' = calls w /\ ticks w' = ticks w.
Proof.
  destruct commit.
  - intros (Hp & Hf & _ & Hi & Hc & Ht)%Model_save_ok. repeat split; auto.
  - intros [-> ->]%ret_ok. repeat split; auto. discriminate.
Qed.

Lemma RequestMeetupForm_save_ok (E : Env) (self : Form) (commit : bool)
    (inst : dict) (w w' : World) :
  RequestMeetupForm_save E self commit w = (Ok inst, w') ->
  exists user su,
    errors self = []
    /\ self_attrs self !! "user" = Some user
    /\ systers_user E user = Some su
    /\ (if commit then Model_save "RequestMeetup" else ret)
         (<["created_by" := su]> (form_instance self)) w = (Ok inst, w').
Proof.
  unfold RequestMeetupForm_save. intros H. inv_run.
  eexists _, _. repeat split; eauto. by destruct commit.
Qed.

Lemma RequestVirtualMeetupForm_save_ok (E : Env) (self : Form) (commit : bool)
    (inst : dict) (w w' : World) :
  RequestVirtualMeetupForm_save E self commit w = (Ok inst, w') ->
  exists user su,
    errors self = []
    /\ self_attrs self !! "user" = Some user
    /\ systers_user E user = Some su
    /\ (if commit then Model_save "RequestMeetup" else ret)
         (<["is_virtual" := VBool true]>
            (<["created_by" := su]> (form_instance self))) w = (Ok inst, w').
Proof.
  unfold RequestVirtualMeetupForm_save. intros H. inv_run.
  eexists _, _. repeat split; eauto. by destruct commit.
Qed.

Lemma RsvpForm_save_ok (E : Env) (self : Form) (commit : bool)
    (inst : dict) (w w' : World) :
  RsvpForm_save E self commit w = (Ok inst, w') ->
  exists user su meetup,
    errors self = []
    /\ self_attrs self !! "user" = Some user
    /\ systers_user E user = Some su
    /\ self_attrs self !! "meetup" = Some meetup
    /\ (if commit then Model_save "Rsvp" else ret)
         (<["meetup" := meetup]> (<["user" := su]> (form_instance self))) w
       = (Ok inst, w').
Proof.
  unfold RsvpForm_save. intros H. inv_run.
  eexists _, _, _. repeat split; eauto. by destruct commit.
Qed.

Lemma AddSupportRequestForm_save_ok (E : Env) (self : Form) (commit : bool)
    (inst : dict) (w w' : World) :
  AddSupportRequestForm_save E self commit w = (Ok inst, w') ->
  exists volunteer su meetup,
    errors self = []
    /\ self_attrs self !! "volunteer" = Some volunteer
    /\ systers_user E volunteer = Some su
    /\ self_attrs self !! "meetup" = Some meetup
    /\ (if commit then Model_save "SupportRequest" else ret)
         (<["meetup" := meetup]> (<["volunteer" := su]> (form_instance self))) w
       = (Ok inst, w').
Proof.
  unfold AddSupportRequestForm_save. intros H. inv_run.
  eexists _, _, _. repeat split; eauto. by destruct commit.
Qed.

Lemma AddMeetupCommentForm_save_ok (E : Env) (self : Form) (commit : bool)
    (inst : dict) (w w' : World) :
  AddMeetupCommentForm_save E self commit w = (Ok inst, w') ->
  exists content_object author su,
    errors self = []
    /\ self_attrs self !! "content_object" = Some content_object
    /\ self_attrs self !! "author" = Some author
    /\ systers_user E author = Some su
    /\ (if commit then Model_save "Comment" else ret)
         (<["author" := su]>
            (<["content_object" := content_object]> (form_instance self))) w
       = (Ok inst, w').
Proof.
  unfold AddMeetupCommentForm_save. intros H. inv_run.
  eexists _, _, _. repeat split; eauto. by destruct commit.
Qed.

Lemma AddSupportRequestCommentForm_save_ok (E : Env) (self : Form)
    (commit : bool) (inst : dict) (w w' : World) :
  AddSupportRequestCommentForm_save E self commit w = (Ok inst, w') ->
  exists content_object author su,
    errors self = []
    /\ self_attrs self !! "content_object" = Some content_object
    /\ self_attrs self !! "author" = Some author
    /\ systers_user E author = Some su
    /\ (if commit then Model_save "Comment" else ret)
         (<["author" := su]>
            (<["content_object" := content_object]> (form_instance self))) w
       = (Ok inst, w').
Proof.
  unfold AddSupportRequestCommentForm_save. intros H. inv_run.
  eexists _, _, _. repeat split; eauto. by destruct commit.
Qed.

(** With a valid form, the stored arguments and a SystersUser for the
    user, the stamping saves run to the end: they are the final
    [instance.save()] on the stamped instance. *)
Lemma RequestMeetupForm_save_run (E : Env) (self : Form) (commit : bool)
    (w : World) (user su : value) :
  errors self = [] ->
  self_attrs self !! "user" = Some user ->
  systers_user E user = Some su ->
  RequestMeetupForm_save E self commit w =
  (if commit then Model_save "RequestMeetup" else ret)
    (<["created_by" := su]> (form_instance self)) w.
Proof.
  intros He Hu Hsu.
  unfold RequestMeetupForm_save, bind, ModelForm_save, lift, getattr,
    SystersUser_objects_get, setattr, ret.
  rewrite He, Hu, Hsu. by destruct commit.
Qed.

Lemma RequestVirtualMeetupForm_save_run (E : Env) (self : Form) (commit : bool)
    (w : World) (user su : value) :
  errors self = [] ->
  self_attrs self !! "user" = Some user ->
  systers_user E user = Some su ->
  RequestVirtualMeetupForm_save E self commit w =
  (if commit then Model_save "RequestMeetup" else ret)
    (<["is_virtual" := VBool true]>
       (<["created_by" := su]> (form_instance self))) w.
Proof.
  intros He Hu Hsu.
  unfold RequestVirtualMeetupForm_save, bind, ModelForm_save, lift, getattr,
    SystersUser_objects_get, setattr, ret.
  rewrite He, Hu, Hsu. by destruct commit.
Qed.

Lemma RsvpForm_save_run (E : Env) (self : Form) (commit : bool)
    (w : World) (user su meetup : value) :
  errors self = [] ->
  self_attrs self !! "user" = Some user ->
  systers_user E user = Some su ->
  self_attrs self !! "meetup" = Some meetup ->
  RsvpForm_save E self commit w =
  (if commit then Model_save "Rsvp" else ret)
    (<["meetup" := meetup]> (<["user" := su]> (form_instance self))) w.
Proof.
  intros He Hu Hsu Hm.
  unfold RsvpForm_save, bind, ModelForm_save, lift, getattr,
    SystersUser_objects_get, setattr, ret.
  rewrite He, Hu, Hsu, Hm. by destruct commit.
Qed.

Lemma AddSupportRequestForm_save_run (E : Env) (self : Form) (commit : bool)
    (w : World) (volunteer su meetup : value) :
  errors self = [] ->
  self_attrs self !! "volunteer" = Some volunteer ->
  systers_user E volunteer = Some su ->
  self_attrs self !! "meetup" = Some meetup ->
  AddSupportRequestForm_save E self commit w =
  (if commit then Model_save "SupportRequest" else ret)
    (<["meetup" := meetup]> (<["volunteer" := su]> (form_instance self))) w.
Proof.
  intros He Hu Hsu Hm.
  unfold AddSupportRequestForm_save, bind, ModelForm_save, lift, getattr,
    SystersUser_objects_get, setattr, ret.
  rewrite He, Hu, Hsu, Hm. by destruct commit.
Qed.

Lemma AddMeetupCommentForm_save_run (E : Env) (self : Form) (commit : bool)
    (w : World) (content_object author su : value) :
  errors self = [] ->
  self_attrs self !! "content_object" = Some content_object ->
  self_attrs self !! "author" = Some author ->
  systers_user E author = Some su ->
  AddMeetupCommentForm_save E self commit w =
  (if commit then Model_save "Comment" else ret)
    (<["author" := su]>
       (<["content_object" := content_object]> (form_instance self))) w.
Proof.
  intros He Hco Hau Hsu.
  unfold AddMeetupCommentForm_save, bind, ModelForm_save, lift, getattr,
    SystersUser_objects_get, setattr, ret.
  rewrite He, Hco, Hau, Hsu. by destruct commit.
Qed.

Lemma AddSupportRequestCommentForm_save_run (E : Env) (self : Form)
    (commit : bool) (w : World) (content_object author su : value) :
  errors self = [] ->
  self_attrs self !! "content_object" = Some content_object ->
  self_attrs self !! "author" = Some author ->
  systers_user E author = Some su ->
  AddSupportRequestCommentForm_save E self commit w =
  (if commit then Model_save "Comment" else ret)
    (<["author" := su]>
       (<["content_object" := content_object]> (form_instance self))) w.
Proof.
  intros He Hco Hau Hsu.
  unfold AddSupportRequestCommentForm_save, bind, ModelForm_save, lift, getattr,
    SystersUser_objects_get, setattr, ret.
  rewrite He, Hco, Hau, Hsu. by destruct commit.
Qed.

(** ** The images loop *)

Lemma save_images_run (self : Form) (inst : dict) (v : value) (w : World) :
  cleaned_data self !! "images" = Some v ->
  save_images self inst w =
  if truthy v then
    match v with
    | VFiles fs => for_each fs (fun img => MeetupImages_create img inst) w
    | _ => (Raise TypeError, w)
    end
  else (Ok tt, w).
Proof.
  intros Hv. unfold save_images, bind, lift, dict_item. rewrite Hv.
  destruct (truthy v); [| done]. by destruct v.
Qed.

Lemma falsy_no_files (v : value) : truthy v = false -> files_of v = [].
Proof. destruct v as [| | | | | | | fs]; try done. by destruct fs. Qed.

(** A successful images loop leaves everything but the [MeetupImages]
    table alone, and appends to it the rows of the submitted files. *)
Lemma save_images_ok (self : Form) (inst : dict) (u : unit) (w w' : World) :
  save_images self inst w = (Ok u, w') ->
  exists v,
    cleaned_data self !! "images" = Some v
    /\ rows w' = rows w /\ calls w' = calls w /\ ticks w' = ticks w
    /\ (forall pk, pk_of inst = Some pk -> images w' = (images w ++ image_rows v pk)%list)
    /\ (pk_of inst = None -> images w' = images w /\ files_of v = []).
Proof.
  intros H.
  destruct (cleaned_data self !! "images") as [v |] eqn:Hv.
  2: { unfold save_images, bind, lift, dict_item in H. by rewrite Hv in H. }
  exists v. split; [done |].
  rewrite (save_images_run self inst v w Hv) in H.
  destruct (truthy v) eqn:Htr.
  - destruct v as [| | | | | | | fs]; try discriminate. unfold image_rows. simpl.
    destruct (pk_of inst) as [pk |] eqn:Hpk.
    + rewrite (for_each_create fs inst pk w Hpk) in H.
      injection H as _ <-. simpl. repeat split; try done.
      by intros ? [= <-].
    + rewrite (for_each_create_unsaved fs inst w Hpk) in H.
      destruct fs; [| discriminate]. injection H as _ <-.
      repeat split; done.
  - injection H as _ <-. unfold image_rows.
    rewrite (falsy_no_files v Htr). simpl.
    repeat split; try done. intros. by rewrite app_nil_r.
Qed.

(** ** AddMeetupForm.save *)

Lemma AddMeetupForm_save_ok (E : Env) (self : Form) (commit : bool)
    (inst : dict) (w w' : World) :
  AddMeetupForm_save E self commit w = (Ok inst, w') ->
  exists created_by su is_virtual inst2 w1 w2,
    errors self = []
    /\ self_attrs self !! "created_by" = Some created_by
    /\ systers_user E created_by = Some su
    /\ form_instance self !! "is_virtual" = Some is_virtual
    /\ (if truthy is_virtual then
          exists md j s i,
            provider E (calls w)
              (Call_create_meetup (with_owner su (form_instance self))) = Ok md
            /\ md !! "join_url" = Some j /\ md !! "start_url" = Some s
            /\ md !! "id" = Some i
            /\ inst2 = with_meeting j s i (with_owner su (form_instance self))
            /\ w1 = called w (Call_create_meetup (with_owner su (form_instance self)))
        else inst2 = with_owner su (form_instance self) /\ w1 = w)
    /\ (if commit then Model_save "Meetup" else ret) inst2 w1 = (Ok inst, w2)
    /\ save_images self inst w2 = (Ok tt, w').
Proof.
  unfold AddMeetupForm_save, setattr. intros H.
  apply bind_ok in H as (i0 & w0 & H0 & H).
  apply ModelForm_save_ok in H0 as [Herr [-> ->]].
  apply bind_ok in H as (cb & ? & [Hcb%getattr_ok ->]%lift_ok & H).
  apply bind_ok in H as (su & ? & [Hsu ->]%SystersUser_objects_get_ok & H).
  apply bind_ok in H as (cb' & ? & [Hcb'%getattr_ok ->]%lift_ok & H).
  apply bind_ok in H as (su' & ? & [Hsu' ->]%SystersUser_objects_get_ok & H).
  assert (su' = su) as -> by congruence.
  apply bind_ok in H as (iv & ? & [Hiv%getattr_ok ->]%lift_ok & H).
  rewrite !lookup_insert_ne in Hiv by done.
  apply bind_ok in H as (inst2 & w1 & Hv & H).
  apply bind_ok in H as (inst3 & w2 & Hc & H).
  apply bind_ok in H as ([] & w3 & Hi & [-> ->]%ret_ok).
  exists cb, su, iv, inst2, w1, w2. fold (with_owner su (form_instance self)) in *.
  repeat split; try done.
  destruct (truthy iv).
  - unfold create_meetup in Hv.
    apply bind_ok in Hv as (md & ? & [Hmd ->]%provider_call_ok & Hv).
    apply bind_ok in Hv as (j & ? & [Hj%dict_item_ok ->]%lift_ok & Hv).
    apply bind_ok in Hv as (s & ? & [Hs%dict_item_ok ->]%lift_ok & Hv).
    apply bind_ok in Hv as (i & ? & [Hi'%dict_item_ok ->]%lift_ok & Hv).
    apply ret_ok in Hv as [-> ->].
    exists md, j, s, i. repeat split; done.
  - by apply ret_ok in Hv as [-> ->].
  - by destruct commit.
Qed.

(** The end of [AddMeetupForm.save] when no image was submitted: the
    final [instance.save()]. *)
Lemma AddMeetupForm_save_tail (self : Form) (inst : dict) (w : World) (v : value) :
  cleaned_data self !! "images" = Some v ->
  truthy v = false ->
  bind (Model_save "Meetup" inst)
       (fun instance =>
          bind (save_images self instance) (fun _ => ret instance)) w
  = Model_save "Meetup" inst w.
Proof.
  intros Hv Htr. unfold bind.
  destruct (Model_save "Meetup" inst w) as [[inst' | e] w'']; [| done].
  rewrite (save_images_run self inst' v w'' Hv), Htr. done.
Qed.

(** [AddMeetupForm.save(commit=True)] runs to the end on a valid in-person
    form, and on a valid virtual one when the provider answers with the
    three keys. *)
Lemma AddMeetupForm_save_run (E : Env) (self : Form) (w : World)
    (created_by su is_virtual v : value) :
  errors self = [] ->
  self_attrs self !! "created_by" = Some created_by ->
  systers_user E created_by = Some su ->
  form_instance self !! "is_virtual" = Some is_virtual ->
  truthy is_virtual = false ->
  cleaned_data self !! "images" = Some v ->
  truthy v = false ->
  AddMeetupForm_save E self true w =
  Model_save "Meetup" (with_owner su (form_instance self)) w.
Proof.
  intros He Hu Hsu Hiv Htr Hv Hfalsy.
  rewrite <- (AddMeetupForm_save_tail self _ w v Hv Hfalsy).
  unfold AddMeetupForm_save, with_owner, setattr, bind, ModelForm_save, lift,
    getattr, SystersUser_objects_get, ret.
  rewrite He, Hu. cbv beta iota. rewrite Hsu. cbv beta iota.
  rewrite !lookup_insert_ne by done. rewrite Hiv. cbv beta iota. rewrite Htr.
  reflexivity.
Qed.

Lemma AddMeetupForm_save_run_virtual (E : Env) (self : Form) (w : World)
    (created_by su is_virtual v j s i : value) (md : dict) :
  errors self = [] ->
  self_attrs self !! "created_by" = Some created_by ->
  systers_user E created_by = Some su ->
  form_instance self !! "is_virtual" = Some is_virtual ->
  truthy is_virtual = true ->
  provider E (calls w) (Call_create_meetup (with_owner su (form_instance self)))
  = Ok md ->
  md !! "join_url" = Some j -> md !! "start_url" = Some s -> md !! "id" = Some i ->
  cleaned_data self !! "images" = Some v ->
  truthy v = false ->
  AddMeetupForm_save E self true w =
  Model_save "Meetup" (with_meeting j s i (with_owner su (form_instance self)))
    (called w (Call_create_meetup (with_owner su (form_instance self)))).
Proof.
  intros He Hu Hsu Hiv Htr Hmd Hj Hs Hi Hv Hfalsy.
  rewrite <- (AddMeetupForm_save_tail self _ _ v Hv Hfalsy).
  unfold with_owner in Hmd.
  unfold AddMeetupForm_save, with_meeting, with_owner, setattr, bind,
    ModelForm_save, lift, getattr, SystersUser_objects_get, ret,
    create_meetup, provider_call, dict_item, called.
  rewrite He, Hu. cbv beta iota. rewrite Hsu. cbv beta iota.
  rewrite !lookup_insert_ne by done. rewrite Hiv. cbv beta iota. rewrite Htr.
  rewrite Hmd. cbv beta iota. rewrite Hj, Hs, Hi.
  reflexivity.
Qed.

(** ** Ownership stamped by the creating forms *)

Lemma persisted_frame (w w' : World) (model : string) (inst : dict) :
  rows w' = rows w -> persisted w model inst -> persisted w' model inst.
Proof. unfold persisted. intros ->. done. Qed.

(** C7. After a successful [save(commit=True)]: RequestMeetupForm has
    persisted the instance with [created_by] the SystersUser of the user
    given as [created_by] at construction; AddMeetupForm with [created_by]
    and [leader] both the SystersUser of the [created_by] argument;
    RsvpForm with [user] the SystersUser of the [user] argument and
    [meetup] the [meetup] argument. *)
Theorem creating_forms_stamp_foreign_keys
    (E : Env) (args : list value) (kwargs : dict) (self : Form)
    (inst : dict) (w w' : World) :
  (RequestMeetupForm_init E args kwargs = Ok self ->
   RequestMeetupForm_save E self true w = (Ok inst, w') ->
   exists user su,
     kwargs !! "created_by" = Some user /\ systers_user E user = Some su
     /\ persisted w' "RequestMeetup" inst
     /\ inst !! "created_by" = Some su)
  /\ (AddMeetupForm_init E args kwargs = Ok self ->
      AddMeetupForm_save E self true w = (Ok inst, w') ->
      exists user su,
        kwargs !! "created_by" = Some user /\ systers_user E user = Some su
        /\ persisted w' "Meetup" inst
        /\ inst !! "created_by" = Some su /\ inst !! "leader" = Some su)
  /\ (RsvpForm_init E args kwargs = Ok self ->
      RsvpForm_save E self true w = (Ok inst, w') ->
      exists user su meetup,
        kwargs !! "user" = Some user /\ systers_user E user = Some su
        /\ kwargs !! "meetup" = Some meetup
        /\ persisted w' "Rsvp" inst
        /\ inst !! "user" = Some su /\ inst !! "meetup" = Some meetup).
Proof.
  split; [| split].
  - unfold RequestMeetupForm_init, dict_pop, setattr.
    destruct (kwargs !! "created_by") as [user |] eqn:Hk; [| discriminate].
    intros [= <-] Hs.
    apply RequestMeetupForm_save_ok in Hs as (u & su & _ & Hu & Hsu & Hs).
    simpl in Hu. rewrite lookup_insert_eq in Hu. injection Hu as <-.
    apply Model_save_ok in Hs as (Hp & Hf & _).
    exists user, su. repeat split; try done.
    rewrite Hf by done. apply lookup_insert_eq.
  - unfold AddMeetupForm_init, dict_pop, setattr.
    destruct (kwargs !! "created_by") as [user |] eqn:Hk; [| discriminate].
    destruct (delete "created_by" kwargs !! "leader"); [| discriminate].
    intros [= <-] Hs.
    apply AddMeetupForm_save_ok
      in Hs as (u & su & iv & inst2 & w1 & w2 & _ & Hu & Hsu & _ & Hv & Hc & Hi).
    simpl in Hu. rewrite lookup_insert_ne, lookup_insert_eq in Hu by done.
    injection Hu as <-.
    apply Model_save_ok in Hc as (Hp & Hf & _).
    apply save_images_ok in Hi as (_ & _ & Hr & _).
    exists user, su. repeat split; try done.
    + by apply (persisted_frame w2).
    + rewrite Hf by done.
      destruct (truthy iv).
      * destruct Hv as (md & j & s & i & _ & _ & _ & _ & -> & _).
        unfold with_meeting, with_owner. by simplify_map_eq.
      * destruct Hv as [-> _]. unfold with_owner. by simplify_map_eq.
    + rewrite Hf by done.
      destruct (truthy iv).
      * destruct Hv as (md & j & s & i & _ & _ & _ & _ & -> & _).
        unfold with_meeting, with_owner. by simplify_map_eq.
      * destruct Hv as [-> _]. unfold with_owner. by simplify_map_eq.
  - unfold RsvpForm_init, dict_pop, setattr.
    destruct (kwargs !! "user") as [user |] eqn:Hk; [| discriminate].
    destruct (delete "user" kwargs !! "meetup") as [meetup |] eqn:Hm;
      [| discriminate].
    rewrite lookup_delete_ne in Hm by done.
    intros [= <-] Hs.
    apply RsvpForm_save_ok in Hs as (u & su & m & _ & Hu & Hsu & Hm' & Hs).
    simpl in Hu, Hm'.
    rewrite lookup_insert_ne, lookup_insert_eq in Hu by done.
    rewrite lookup_insert_eq in Hm'.
    injection Hu as <-. injection Hm' as <-.
    apply Model_save_ok in Hs as (Hp & Hf & _).
    exists user, su, meetup. repeat split; try done.
    + rewrite Hf by done. by simplify_map_eq.
    + rewrite Hf by done. by simplify_map_eq.
Qed.

Lemma creating_forms_stamp_foreign_keys_witness :
  let kwargs : dict := <["created_by" := VObj "User" 1]> ∅ in
  exists self inst w',
    RequestMeetupForm_init sample_env [] kwargs = Ok self
    /\ RequestMeetupForm_save sample_env self true empty_world = (Ok inst, w')
    /\ persisted w' "RequestMeetup" inst
    /\ inst !! "created_by" = Some (VObj "SystersUser" 7).
Proof.
  intros kwargs.
  pose (self := mkForm (<["user" := VObj "User" 1]> ∅)
                       (form_instance blank_form) (cleaned_data blank_form) []).
  assert (Hi : RequestMeetupForm_init sample_env [] kwargs = Ok self)
    by reflexivity.
  destruct (Model_save_total "RequestMeetup"
              (<["created_by" := VObj "SystersUser" 7]> (form_instance self))
              empty_world) as (inst & w' & Hm).
  assert (Hs : RequestMeetupForm_save sample_env self true empty_world
               = (Ok inst, w')).
  { rewrite <- Hm.
    by apply (RequestMeetupForm_save_run sample_env self true empty_world
                (VObj "User" 1)). }
  exists self, inst, w'. split; [exact Hi |]. split; [exact Hs |].
  destruct (proj1 (creating_forms_stamp_foreign_keys
                     sample_env [] kwargs self inst empty_world w') Hi Hs)
    as (user & su & Hu & Hsu & Hp & Hc).
  split; [exact Hp |].
  rewrite Hc. f_equal.
  unfold kwargs in Hu. rewrite lookup_insert_eq in Hu. injection Hu as <-.
  cbn in Hsu. congruence.
Defined.

(** ** RequestVirtualMeetupForm.save *)

(** C10. Every instance that [RequestVirtualMeetupForm.save] returns has
    [is_virtual] set to [True], whatever the form held; with [commit] the
    row in the database has it too. *)
Theorem RequestVirtualMeetupForm_save_is_virtual
    (E : Env) (self : Form) (commit : bool) (inst : dict) (w w' : World) :
  RequestVirtualMeetupForm_save E self commit w = (Ok inst, w') ->
  inst !! "is_virtual" = Some (VBool true)
  /\ (commit = true -> persisted w' "RequestMeetup" inst).
Proof.
  intros (user & su & _ & _ & _ & Hs)%RequestVirtualMeetupForm_save_ok.
  apply commit_ok in Hs as (Hp & Hf & _).
  split; [| exact Hp].
  rewrite Hf by done. apply lookup_insert_eq.
Qed.

Lemma RequestVirtualMeetupForm_save_is_virtual_witness :
  let self :=
    mkForm (<["user" := VObj "User" 1]> ∅)
           (<["is_virtual" := VBool false]> ∅) ∅ [] in
  exists inst w',
    RequestVirtualMeetupForm_save sample_env self true empty_world = (Ok inst, w')
    /\ inst !! "is_virtual" = Some (VBool true).
Proof.
  intros self.
  destruct (Model_save_total "RequestMeetup"
              (<["is_virtual" := VBool true]>
                 (<["created_by" := VObj "SystersUser" 7]> (form_instance self)))
              empty_world) as (inst & w' & Hm).
  assert (Hs : RequestVirtualMeetupForm_save sample_env self true empty_world
               = (Ok inst, w')).
  { rewrite <- Hm.
    by apply (RequestVirtualMeetupForm_save_run sample_env self true empty_world
                (VObj "User" 1)). }
  exists inst, w'. split; [exact Hs |].
  exact (proj1 (RequestVirtualMeetupForm_save_is_virtual
                  sample_env self true inst empty_world w' Hs)).
Defined.

(** ** AddMeetupForm: the [leader] argument *)

Lemma AddMeetupForm_save_ext (E : Env) (f g : Form) (commit : bool) :
  self_attrs f !! "created_by" = self_attrs g !! "created_by" ->
  form_instance f = form_instance g ->
  cleaned_data f = cleaned_data g ->
  errors f = errors g ->
  AddMeetupForm_save E f commit = AddMeetupForm_save E g commit.
Proof.
  intros Ha Hi Hc He.
  unfold AddMeetupForm_save, ModelForm_save, save_images, getattr.
  rewrite Ha, Hi, Hc, He. reflexivity.
Qed.

(** C8. The [leader] argument of the constructor has no effect on what
    [AddMeetupForm.save] does: two forms built from arguments that differ
    in [leader] only save alike (same outcome, same instance, same world),
    and the [leader] of the saved instance is the SystersUser of the
    [created_by] argument. *)
Theorem AddMeetupForm_leader_argument_ignored
    (E : Env) (args : list value) (kwargs : dict) (user l1 l2 : value)
    (commit : bool) (w : World) :
  kwargs !! "created_by" = Some user ->
  exists f1 f2,
    AddMeetupForm_init E args (<["leader" := l1]> kwargs) = Ok f1
    /\ AddMeetupForm_init E args (<["leader" := l2]> kwargs) = Ok f2
    /\ AddMeetupForm_save E f1 commit w = AddMeetupForm_save E f2 commit w
    /\ forall inst w',
         AddMeetupForm_save E f1 commit w = (Ok inst, w') ->
         exists su, systers_user E user = Some su /\ inst !! "leader" = Some su.
Proof.
  intros Hu.
  assert (Hk : forall l : value,
             delete "leader" (delete "created_by" (<["leader" := l]> kwargs))
             = delete "leader" (delete "created_by" kwargs)).
  { intros l. rewrite (delete_insert_ne _ "created_by" "leader") by done.
    apply delete_insert_eq. }
  assert (Hinit : forall l : value,
             AddMeetupForm_init E args (<["leader" := l]> kwargs) =
             let base := ModelForm_init E args
                           (delete "leader" (delete "created_by" kwargs)) in
             Ok (mkForm (<["leader" := l]>
                           (<["created_by" := user]> (self_attrs base)))
                        (form_instance base) (cleaned_data base) (errors base))).
  { intros l. unfold AddMeetupForm_init, dict_pop, setattr.
    rewrite lookup_insert_ne by done. rewrite Hu.
    rewrite lookup_delete_ne by done. rewrite lookup_insert_eq.
    rewrite Hk. reflexivity. }
  eexists _, _. split; [apply Hinit |]. split; [apply Hinit |]. split.
  - apply (f_equal (fun m => m w)).
    apply AddMeetupForm_save_ext;
      cbn [self_attrs form_instance cleaned_data errors]; try reflexivity.
    rewrite (lookup_insert_ne _ "leader" "created_by") by done.
    rewrite (lookup_insert_ne _ "leader" "created_by") by done.
    reflexivity.
  - intros inst w' Hs.
    apply AddMeetupForm_save_ok
      in Hs as (u & su & iv & inst2 & w1 & w2 & _ & Hcb & Hsu & _ & Hv & Hc & _).
    simpl in Hcb. rewrite lookup_insert_ne, lookup_insert_eq in Hcb by done.
    injection Hcb as <-.
    exists su. split; [done |].
    apply commit_ok in Hc as (_ & Hf & _). rewrite Hf by done.
    destruct (truthy iv).
    + destruct Hv as (md & j & s & i & _ & _ & _ & _ & -> & _).
      unfold with_meeting, with_owner. by simplify_map_eq.
    + destruct Hv as [-> _]. unfold with_owner. by simplify_map_eq.
Qed.

Lemma AddMeetupForm_leader_argument_ignored_witness :
  let kwargs : dict := <["created_by" := VObj "User" 1]> ∅ in
  exists f1 f2,
    AddMeetupForm_init sample_env [] (<["leader" := VObj "User" 2]> kwargs) = Ok f1
    /\ AddMeetupForm_init sample_env [] (<["leader" := VNone]> kwargs) = Ok f2
    /\ AddMeetupForm_save sample_env f1 true empty_world
       = AddMeetupForm_save sample_env f2 true empty_world
    /\ forall inst w',
         AddMeetupForm_save sample_env f1 true empty_world = (Ok inst, w') ->
         exists su, systers_user sample_env (VObj "User" 1) = Some su
                    /\ inst !! "leader" = Some su.
Proof.
  intros kwargs.
  apply (AddMeetupForm_leader_argument_ignored
           sample_env [] kwargs (VObj "User" 1) (VObj "User" 2) VNone
           true empty_world).
  reflexivity.
Defined.

(** ** AddMeetupForm: the provider *)

(** Whatever its outcome, the images loop touches the [MeetupImages] table
    only. *)
Lemma save_images_frame (self : Form) (inst : dict) (w : World) :
  rows (snd (save_images self inst w)) = rows w
  /\ calls (snd (save_images self inst w)) = calls w
  /\ ticks (snd (save_images self inst w)) = ticks w.
Proof.
  destruct (cleaned_data self !! "images") as [v |] eqn:Hv.
  2: { unfold save_images, bind, lift, dict_item. by rewrite Hv. }
  rewrite (save_images_run self inst v w Hv).
  destruct (truthy v); [| done].
  destruct v as [| | | | | | | fs]; try done.
  destruct (pk_of inst) as [pk |] eqn:Hpk.
  - by rewrite (for_each_create fs inst pk w Hpk).
  - rewrite (for_each_create_unsaved fs inst w Hpk). by destruct fs.
Qed.

Lemma bind_calls {A B} (m : M A) (k : A -> M B) (w : World) :
  calls (snd (m w)) = calls w ->
  (forall a w1, m w = (Ok a, w1) -> calls (snd (k a w1)) = calls w1) ->
  calls (snd (bind m k w)) = calls w.
Proof.
  unfold bind. destruct (m w) as [[a | e] w1]; simpl; intros H1 H2; [| done].
  by rewrite (H2 a w1 eq_refl).
Qed.

Lemma ModelForm_save_frame (c : FormClass) (self : Form) (commit : bool) (w : World) :
  calls (snd (ModelForm_save c self commit w)) = calls w.
Proof.
  unfold ModelForm_save. destruct (errors self); [| done].
  destruct commit; [| done]. unfold Model_save. by destruct (pk_of _).
Qed.

Lemma SystersUser_objects_get_frame (E : Env) (u : value) (w : World) :
  calls (snd (SystersUser_objects_get E u w)) = calls w.
Proof. unfold SystersUser_objects_get. by destruct (systers_user E u). Qed.

Lemma commit_frame (model : string) (commit : bool) (i : dict) (w : World) :
  calls (snd ((if commit then Model_save model i else ret i) w)) = calls w.
Proof. destruct commit; [| done]. unfold Model_save. by destruct (pk_of i). Qed.

(** C4. [AddMeetupForm.save] on an instance whose [is_virtual] is true
    calls [create_meetup] once, with the instance as stamped with its
    owner, and sets [meet_link], [start_url] and [meeting_id] to the
    [join_url], [start_url] and [id] of the answer before the instance is
    saved.  On an instance whose [is_virtual] is false the provider is not
    called, whatever the outcome, and the three attributes stay as they
    were. *)
Theorem AddMeetupForm_save_provider
    (E : Env) (self : Form) (commit : bool) (w : World) (is_virtual : value) :
  form_instance self !! "is_virtual" = Some is_virtual ->
  (truthy is_virtual = true ->
   forall inst w',
     AddMeetupForm_save E self commit w = (Ok inst, w') ->
     exists su md,
       provider E (calls w)
         (Call_create_meetup (with_owner su (form_instance self))) = Ok md
       /\ calls w' =
          (calls w ++ [Call_create_meetup (with_owner su (form_instance self))])%list
       /\ inst !! "meet_link" = md !! "join_url"
       /\ inst !! "start_url" = md !! "start_url"
       /\ inst !! "meeting_id" = md !! "id"
       /\ (commit = true -> persisted w' "Meetup" inst))
  /\ (truthy is_virtual = false ->
      calls (snd (AddMeetupForm_save E self commit w)) = calls w
      /\ forall inst w',
           AddMeetupForm_save E self commit w = (Ok inst, w') ->
           inst !! "meet_link" = form_instance self !! "meet_link"
           /\ inst !! "start_url" = form_instance self !! "start_url"
           /\ inst !! "meeting_id" = form_instance self !! "meeting_id"
           /\ (commit = true -> persisted w' "Meetup" inst)).
Proof.
  intros Hiv. split; intros Htr.
  - intros inst w' Hs.
    apply AddMeetupForm_save_ok
      in Hs as (u & su & iv & inst2 & w1 & w2 & _ & _ & _ & Hiv' & Hv & Hc & Hi).
    assert (iv = is_virtual) as -> by congruence.
    rewrite Htr in Hv.
    destruct Hv as (md & j & s & i & Hmd & Hj & Hs & Hid & -> & ->).
    apply commit_ok in Hc as (Hp & Hf & _ & Hcalls & _).
    apply save_images_ok in Hi as (_ & _ & Hr & Hcalls' & _).
    exists su, md. split; [done |]. split; [by rewrite Hcalls', Hcalls |].
    rewrite !Hf by done. unfold with_meeting.
    repeat split.
    + rewrite Hj. by simplify_map_eq.
    + rewrite Hs. by simplify_map_eq.
    + rewrite Hid. by simplify_map_eq.
    + intros Hcm. apply (persisted_frame w2); auto.
  - split.
    + unfold AddMeetupForm_save, setattr.
      apply bind_calls; [apply ModelForm_save_frame |].
      intros i0 w0 [_ [-> ->]]%ModelForm_save_ok.
      apply bind_calls; [done |]. intros cb ? [_ ->]%lift_ok.
      apply bind_calls; [apply SystersUser_objects_get_frame |].
      intros su ? [_ ->]%SystersUser_objects_get_ok.
      apply bind_calls; [done |]. intros cb' ? [_ ->]%lift_ok.
      apply bind_calls; [apply SystersUser_objects_get_frame |].
      intros su' ? [_ ->]%SystersUser_objects_get_ok.
      apply bind_calls; [done |]. intros iv ? [Hiv'%getattr_ok ->]%lift_ok.
      rewrite !lookup_insert_ne in Hiv' by done.
      assert (iv = is_virtual) as -> by congruence. rewrite Htr.
      apply bind_calls; [done |]. intros inst2 ? [-> ->]%ret_ok.
      apply bind_calls; [apply commit_frame |]. intros inst3 w2 _.
      apply bind_calls; [apply save_images_frame |]. done.
    + intros inst w' Hs.
      apply AddMeetupForm_save_ok
        in Hs as (u & su & iv & inst2 & w1 & w2 & _ & _ & _ & Hiv' & Hv & Hc & Hi).
      assert (iv = is_virtual) as -> by congruence.
      rewrite Htr in Hv. destruct Hv as [-> ->].
      apply commit_ok in Hc as (Hp & Hf & _).
      apply save_images_ok in Hi as (_ & _ & Hr & _).
      rewrite !Hf by done. unfold with_owner.
      repeat split; try by simplify_map_eq.
      intros Hcm. apply (persisted_frame w2); auto.
Qed.

Lemma AddMeetupForm_save_provider_witness :
  let self :=
    mkForm (<["created_by" := VObj "User" 1]> ∅)
           (<["is_virtual" := VBool true]> ∅)
           (<["images" := VNone]> ∅) [] in
  exists inst w',
    AddMeetupForm_save sample_env self true empty_world = (Ok inst, w')
    /\ inst !! "meet_link" = Some (VStr "https://meet/j/42")
    /\ persisted w' "Meetup" inst.
Proof.
  intros self.
  pose (sent := with_owner (VObj "SystersUser" 7) (form_instance self)).
  destruct (Model_save_total "Meetup"
              (with_meeting (VStr "https://meet/j/42") (VStr "https://meet/s/42")
                            (VInt 42) sent)
              (called empty_world (Call_create_meetup sent)))
    as (inst & w' & Hm).
  assert (Hs : AddMeetupForm_save sample_env self true empty_world
               = (Ok inst, w')).
  { rewrite <- Hm.
    by apply (AddMeetupForm_save_run_virtual sample_env self empty_world
                (VObj "User" 1) (VObj "SystersUser" 7) (VBool true) VNone
                _ _ _ sample_meeting). }
  destruct (AddMeetupForm_save_provider
              sample_env self true empty_world (VBool true) eq_refl) as [H _].
  destruct (H eq_refl inst w' Hs) as (su & md & Hmd & _ & Hl & _ & _ & Hp).
  exists inst, w'. split; [exact Hs |]. split; [| apply Hp; reflexivity].
  rewrite Hl. cbn in Hmd. injection Hmd as <-. reflexivity.
Defined.

(** ** EditMeetupForm.save *)

Lemma with_meeting_pk (j s i : value) (inst : dict) :
  pk_of (with_meeting j s i inst) = pk_of inst.
Proof. unfold pk_of, with_meeting. by rewrite !lookup_insert_ne by done. Qed.

Lemma EditMeetupForm_save_ok (E : Env) (self : Form) (commit : bool)
    (inst : dict) (w w' : World) :
  EditMeetupForm_save E self commit w = (Ok inst, w') ->
  exists inst0 w0 w1 is_virtual,
    ModelForm_save EditMeetupForm self commit w = (Ok inst0, w0)
    /\ save_images self inst0
         (mkWorld (rows w0)
                  (filter (fun r => Some (snd r) <> pk_of inst0) (images w0))
                  (calls w0) (next_pk w0) (ticks w0)) = (Ok tt, w1)
    /\ inst0 !! "is_virtual" = Some is_virtual
    /\ if truthy is_virtual then
         exists md0 md j s i,
           provider E (calls w1) (Call_edit_meetup inst0) = Ok md0
           /\ provider E (calls w1 ++ [Call_edit_meetup inst0])
                (Call_get_meetup inst0) = Ok md
           /\ md !! "join_url" = Some j /\ md !! "start_url" = Some s
           /\ md !! "id" = Some i
           /\ inst = with_meeting j s i inst0
           /\ w' = called (called w1 (Call_edit_meetup inst0))
                          (Call_get_meetup inst0)
       else inst = inst0 /\ w' = w1.
Proof.
  unfold EditMeetupForm_save, setattr. intros H.
  apply bind_ok in H as (inst0 & w0 & H0 & H).
  apply bind_ok in H as ([] & ? & Hd & H).
  unfold MeetupImages_delete_of in Hd. injection Hd as <-.
  apply bind_ok in H as ([] & w1 & Hi & H).
  apply bind_ok in H as (iv & ? & [Hiv%getattr_ok ->]%lift_ok & H).
  exists inst0, w0, w1, iv. repeat split; try done.
  destruct (truthy iv).
  - unfold edit_meetup, get_meetup in H.
    apply bind_ok in H as (md0 & ? & [Hmd0 ->]%provider_call_ok & H).
    apply bind_ok in H as (md & ? & [Hmd ->]%provider_call_ok & H).
    apply bind_ok in H as (j & ? & [Hj%dict_item_ok ->]%lift_ok & H).
    apply bind_ok in H as (s & ? & [Hs%dict_item_ok ->]%lift_ok & H).
    apply bind_ok in H as (i & ? & [Hi'%dict_item_ok ->]%lift_ok & H).
    apply ret_ok in H as [-> ->].
    exists md0, md, j, s, i. repeat split; done.
  - by apply ret_ok in H as [-> ->].
Qed.

(** The images loop on a saved instance runs to the end. *)
Lemma save_images_saved (self : Form) (inst : dict) (pk : Z) (v : value)
    (w : World) :
  pk_of inst = Some pk ->
  cleaned_data self !! "images" = Some v ->
  truthy v = false \/ (exists fs, v = VFiles fs) ->
  save_images self inst w =
  (Ok tt, mkWorld (rows w) (images w ++ image_rows v pk) (calls w)
                  (next_pk w) (ticks w)).
Proof.
  intros Hpk Hv Hcase. rewrite (save_images_run self inst v w Hv).
  destruct (truthy v) eqn:Htr.
  - destruct Hcase as [? | [fs ->]]; [done |].
    by rewrite (for_each_create fs inst pk w Hpk).
  - unfold image_rows. rewrite (falsy_no_files v Htr). simpl.
    rewrite app_nil_r. by destruct w.
Qed.

(** [EditMeetupForm.save(commit=True)] runs to the end on a valid form
    around a saved in-person meetup, and around a saved virtual one when
    the provider answers both calls, the second with the three keys. *)
Lemma EditMeetupForm_save_run (E : Env) (self : Form) (w : World) (pk : Z)
    (v is_virtual : value) :
  errors self = [] ->
  pk_of (form_instance self) = Some pk ->
  cleaned_data self !! "images" = Some v ->
  truthy v = false \/ (exists fs, v = VFiles fs) ->
  form_instance self !! "is_virtual" = Some is_virtual ->
  truthy is_virtual = false ->
  EditMeetupForm_save E self true w =
  (Ok (form_instance self), edited w pk (form_instance self) v).
Proof.
  intros He Hpk Hv Hcase Hiv Htr.
  unfold EditMeetupForm_save, bind, ModelForm_save, Model_save,
    MeetupImages_delete_of, lift, getattr, ret, edited.
  rewrite He, Hpk. cbv beta iota. rewrite Hpk.
  rewrite (save_images_saved self _ pk v _ Hpk Hv Hcase).
  cbn [rows images calls next_pk ticks Meta_model].
  rewrite Hiv. cbv beta iota. rewrite Htr. reflexivity.
Qed.

Lemma EditMeetupForm_save_run_virtual (E : Env) (self : Form) (w : World)
    (pk : Z) (v is_virtual j s i : value) (md0 md : dict) :
  errors self = [] ->
  pk_of (form_instance self) = Some pk ->
  cleaned_data self !! "images" = Some v ->
  truthy v = false \/ (exists fs, v = VFiles fs) ->
  form_instance self !! "is_virtual" = Some is_virtual ->
  truthy is_virtual = true ->
  provider E (calls w) (Call_edit_meetup (form_instance self)) = Ok md0 ->
  provider E (calls w ++ [Call_edit_meetup (form_instance self)])
    (Call_get_meetup (form_instance self)) = Ok md ->
  md !! "join_url" = Some j -> md !! "start_url" = Some s -> md !! "id" = Some i ->
  EditMeetupForm_save E self true w =
  (Ok (with_meeting j s i (form_instance self)),
   called (called (edited w pk (form_instance self) v)
                  (Call_edit_meetup (form_instance self)))
          (Call_get_meetup (form_instance self))).
Proof.
  intros He Hpk Hv Hcase Hiv Htr Hmd0 Hmd Hj Hs Hi.
  unfold EditMeetupForm_save, bind, ModelForm_save, Model_save,
    MeetupImages_delete_of, lift, getattr, ret, edited, edit_meetup,
    get_meetup, provider_call, dict_item, called, with_meeting, setattr.
  rewrite He, Hpk. cbv beta iota. rewrite Hpk.
  rewrite (save_images_saved self _ pk v _ Hpk Hv Hcase).
  cbn [rows images calls next_pk ticks Meta_model].
  rewrite Hiv. cbv beta iota. rewrite Htr.
  cbn [rows images calls next_pk ticks].
  rewrite Hmd0, Hmd. cbv beta iota. rewrite Hj, Hs, Hi. reflexivity.
Qed.

Lemma images_after_replace (l : list (string * Z)) (new : list string) (pk : Z) :
  filter (fun r => snd r = pk)
         (filter (fun r => snd r <> pk) l ++ map (fun img => (img, pk)) new)%list
  = map (fun img => (img, pk)) new.
Proof.
  rewrite filter_app.
  assert (H1 : filter (fun r : string * Z => snd r = pk)
                      (filter (fun r => snd r <> pk) l) = []).
  { induction l as [| r l IH]; [done |].
    rewrite (filter_cons (fun r => snd r <> pk)). case_decide; [| done].
    rewrite filter_cons. by rewrite decide_False. }
  assert (H2 : filter (fun r : string * Z => snd r = pk)
                      (map (fun img => (img, pk)) new)
               = map (fun img => (img, pk)) new).
  { induction new as [| img new IH]; [done |].
    simpl. rewrite filter_cons, decide_True by done. by rewrite IH. }
  by rewrite H1, H2.
Qed.

(** C9. A successful [EditMeetupForm.save] leaves, for the meetup it
    edits, exactly one [MeetupImages] row per submitted image: the rows the
    meetup had are deleted first, the new ones are appended, and the rows
    of other meetups stay.  With no image submitted the meetup has no row
    left. *)
Theorem EditMeetupForm_save_replaces_images
    (E : Env) (self : Form) (commit : bool) (inst : dict) (w w' : World) :
  EditMeetupForm_save E self commit w = (Ok inst, w') ->
  exists v,
    cleaned_data self !! "images" = Some v
    /\ forall pk, pk_of inst = Some pk ->
         images w' =
         (filter (fun r => snd r <> pk) (images w) ++ image_rows v pk)%list
         /\ images_of w' pk = image_rows v pk
         /\ (truthy v = false -> images_of w' pk = []).
Proof.
  intros (inst0 & w0 & w1 & iv & H0 & Hi & _ & Hv)%EditMeetupForm_save_ok.
  apply save_images_ok in Hi as (v & Hcd & _ & _ & _ & Himg & _).
  exists v. split; [done |]. intros pk Hpk.
  assert (Hpk0 : pk_of inst0 = Some pk).
  { destruct (truthy iv).
    - destruct Hv as (? & ? & j & s & i & _ & _ & _ & _ & _ & -> & _).
      by rewrite with_meeting_pk in Hpk.
    - by destruct Hv as [-> _]. }
  assert (Himg0 : images w0 = images w).
  { apply ModelForm_save_ok in H0 as [_ H0]. destruct commit.
    - by apply Model_save_ok in H0 as (_ & _ & _ & ? & _).
    - by destruct H0 as [_ ->]. }
  assert (Hw' : images w' =
                (filter (fun r => snd r <> pk) (images w) ++ image_rows v pk)%list).
  { assert (images w' = images w1) as ->.
    { destruct (truthy iv).
      - by destruct Hv as (? & ? & ? & ? & ? & _ & _ & _ & _ & _ & _ & ->).
      - by destruct Hv as [_ ->]. }
    rewrite (Himg pk Hpk0). simpl. rewrite Hpk0, Himg0. f_equal.
    apply list_filter_iff. intros r. split; congruence. }
  assert (Hof : images_of w' pk = image_rows v pk).
  { unfold images_of. rewrite Hw'. apply images_after_replace. }
  repeat split; try done.
  intros Htr. rewrite Hof. unfold image_rows. by rewrite (falsy_no_files v Htr).
Qed.

Lemma EditMeetupForm_save_replaces_images_witness :
  let self :=
    mkForm ∅ (<["id" := VInt 5]> (<["is_virtual" := VBool false]> ∅))
           (<["images" := VFiles ["c.png"]]> ∅) [] in
  let w := mkWorld ∅ [("a.png", 5); ("b.png", 6)] [] 7 0 in
  exists inst w',
    EditMeetupForm_save sample_env self true w = (Ok inst, w')
    /\ images w' = [("b.png", 6); ("c.png", 5)]
    /\ images_of w' 5 = [("c.png", 5)].
Proof.
  intros self w.
  assert (Hs : EditMeetupForm_save sample_env self true w
               = (Ok (form_instance self),
                  edited w 5 (form_instance self) (VFiles ["c.png"]))).
  { apply (EditMeetupForm_save_run sample_env self w 5 (VFiles ["c.png"])
             (VBool false)); try reflexivity.
    right. by eexists. }
  destruct (EditMeetupForm_save_replaces_images
              sample_env self true _ w _ Hs) as (v & Hv & H).
  assert (v = VFiles ["c.png"]) as ->.
  { unfold self in Hv. cbn [cleaned_data] in Hv.
    rewrite lookup_insert_eq in Hv. congruence. }
  destruct (H 5 eq_refl) as (Himg & Hof & _).
  eexists _, _. split; [exact Hs |]. split.
  - rewrite Himg. reflexivity.
  - rewrite Hof. reflexivity.
Defined.

(** With [commit], what [EditMeetupForm.save] has written is the instance
    as the form held it: the row is saved before anything is assigned. *)
Lemma EditMeetupForm_save_row (E : Env) (self : Form) (inst : dict) (w w' : World) :
  EditMeetupForm_save E self true w = (Ok inst, w') ->
  exists inst0,
    persisted w' "Meetup" inst0
    /\ forall f, f <> "id" -> inst0 !! f = form_instance self !! f.
Proof.
  intros (inst0 & w0 & w1 & iv & H0 & Hi & _ & Hv)%EditMeetupForm_save_ok.
  apply ModelForm_save_ok in H0 as [_ H0].
  apply Model_save_ok in H0 as (Hp & Hf & _).
  apply save_images_ok in Hi as (_ & _ & Hr & _). simpl in Hr.
  exists inst0. split; [| done].
  apply (persisted_frame w0); [| done].
  destruct (truthy iv).
  - by destruct Hv as (? & ? & ? & ? & ? & _ & _ & _ & _ & _ & _ & ->).
  - by destruct Hv as [_ ->].
Qed.

(** C5 (the code at a virtual meetup).  [EditMeetupForm.save] with
    [commit] on the virtual meetup 5 calls [edit_meetup], then
    [get_meetup], and returns the instance with the new link; the row it
    has saved still holds the old link and no meeting id, because the row
    was written before the assignments. *)
Theorem EditMeetupForm_save_stamps_after_persisting :
  exists inst w' row,
    EditMeetupForm_save sample_env edit_form true empty_world = (Ok inst, w')
    /\ calls w' = [Call_edit_meetup edited_meetup; Call_get_meetup edited_meetup]
    /\ inst !! "meet_link" = Some (VStr "https://meet/j/42")
    /\ inst !! "meeting_id" = Some (VInt 42)
    /\ rows w' !! ("Meetup", 5) = Some row
    /\ row !! "meet_link" = Some (VStr "https://meet/j/old")
    /\ row !! "meeting_id" = None.
Proof.
  eexists _, _, edited_meetup. split.
  - apply (EditMeetupForm_save_run_virtual sample_env edit_form empty_world 5
             VNone (VBool true) (VStr "https://meet/j/42")
             (VStr "https://meet/s/42") (VInt 42) sample_meeting sample_meeting);
      try reflexivity.
    by left.
  - repeat split; reflexivity.
Qed.

(** ** Which classes stamp ownership *)

Lemma ownership_not_id (f : string) : f ∈ ownership_fields -> f <> "id".
Proof.
  unfold ownership_fields. intros H ->.
  repeat (apply elem_of_cons in H as [H | H]; [discriminate |]).
  by apply elem_of_nil in H.
Qed.

Lemma ownership_not_meeting (f : string) :
  f ∈ ownership_fields ->
  f <> "meet_link" /\ f <> "start_url" /\ f <> "meeting_id".
Proof.
  unfold ownership_fields. intros H.
  repeat (apply elem_of_cons in H as [-> | H]; [done |]).
  by apply elem_of_nil in H.
Qed.

(** A [save] that no class overrides writes the instance of the form and
    nothing else. *)
Lemma ModelForm_save_fields (c : FormClass) (self : Form) (commit : bool)
    (inst : dict) (w w' : World) :
  ModelForm_save c self commit w = (Ok inst, w') ->
  forall f, f <> "id" -> inst !! f = form_instance self !! f.
Proof.
  intros [_ H]%ModelForm_save_ok. destruct commit.
  - by apply Model_save_ok in H as (_ & Hf & _).
  - by destruct H as [-> _].
Qed.

Lemma PastMeetup_save_ok (self : Form) (commit : bool)
    (inst : dict) (w w' : World) :
  PastMeetup_save self commit w = (Ok inst, w') ->
  exists w0,
    ModelForm_save PastMeetup self commit w = (Ok inst, w0)
    /\ save_images self inst w0 = (Ok tt, w').
Proof.
  unfold PastMeetup_save. intros H.
  apply bind_ok in H as (inst0 & w0 & H0 & H).
  apply bind_ok in H as ([] & w1 & Hi & [-> ->]%ret_ok).
  by exists w0.
Qed.

(** The classes without a stamping [save] leave every ownership attribute
    of the instance as it was. *)
Lemma unstamped_save_keeps_ownership (E : Env) (c : FormClass) (self : Form)
    (commit : bool) (inst : dict) (w w' : World) :
  stamped c = [] ->
  save E c self commit w = (Ok inst, w') ->
  forall f, f ∈ ownership_fields -> inst !! f = form_instance self !! f.
Proof.
  intros Hc Hs f Hf.
  pose proof (ownership_not_id f Hf) as Hid.
  destruct (ownership_not_meeting f Hf) as (Hl & Hu & Hm).
  destruct c; try discriminate Hc; simpl in Hs.
  - apply EditMeetupForm_save_ok
      in Hs as (inst0 & w0 & w1 & iv & H0 & _ & _ & Hv).
    pose proof (ModelForm_save_fields _ _ _ _ _ _ H0 f Hid) as <-.
    destruct (truthy iv).
    + destruct Hv as (? & ? & j & s & i & _ & _ & _ & _ & _ & -> & _).
      unfold with_meeting. by rewrite !lookup_insert_ne by done.
    + by destruct Hv as [-> _].
  - by apply (ModelForm_save_fields _ _ _ _ _ _ Hs).
  - by apply (ModelForm_save_fields _ _ _ _ _ _ Hs).
  - by apply (ModelForm_save_fields _ _ _ _ _ _ Hs).
  - apply PastMeetup_save_ok in Hs as (w0 & H0 & _).
    by apply (ModelForm_save_fields _ _ _ _ _ _ H0).
Qed.

(** C3 as the specification states it fails: [EditMeetupCommentForm] has no
    [save] of its own, and the inherited one assigns no ownership
    attribute. *)
Lemma not_every_form_stamps_ownership :
  ~ (forall c : FormClass, stamps_ownership c).
Proof.
  intros H. destruct (H EditMeetupCommentForm)
    as (E & self & w & w' & inst & f & Hf & Hs & _ & Hne).
  apply Hne.
  by apply (unstamped_save_keeps_ownership E EditMeetupCommentForm self true
              inst w w').
Qed.

(** One stamped attribute of a run that ended in [Model_save]. *)
Lemma stamped_lookup (model : string) (i inst : dict) (w w' : World)
    (f : string) (v : value) :
  Model_save model i w = (Ok inst, w') ->
  f <> "id" -> i !! f = Some v ->
  persisted w' model inst /\ inst !! f = Some v.
Proof.
  intros (Hp & Hf & _)%Model_save_ok Hid Hi. split; [done |].
  by rewrite Hf.
Qed.

(** C3, amended.  After a successful [save(commit=True)] of any class, each
    ownership attribute that the class's [save] assigns (created_by,
    leader, author, content_object, user, volunteer, meetup: the table
    [stamped]) has, in the persisted row, the value taken from the
    constructor's arguments; a class that assigns none (the four edit
    forms and PastMeetup) leaves every ownership attribute as it was. *)
Theorem creating_saves_stamp_ownership
    (E : Env) (c : FormClass) (self : Form) (inst : dict) (w w' : World) :
  save E c self true w = (Ok inst, w') ->
  (forall field src,
     (field, src) ∈ stamped c ->
     persisted w' (Meta_model c) inst
     /\ exists v, stamp_value E self src = Some v /\ inst !! field = Some v)
  /\ (stamped c = [] ->
      forall f, f ∈ ownership_fields -> inst !! f = form_instance self !! f).
Proof.
  intros Hs. split.
  2: { intros Hc. by apply (unstamped_save_keeps_ownership E c self true inst w w'). }
  intros field src Hin.
  destruct c; simpl in Hin, Hs;
    repeat (apply elem_of_cons in Hin as [[= -> ->] | Hin]);
    try (by apply elem_of_nil in Hin); simpl.
  - apply RequestMeetupForm_save_ok in Hs as (u & su & _ & Hu & Hsu & Hs).
    rewrite Hu, Hsu.
    apply (stamped_lookup _ _ _ _ _ "created_by" su) in Hs as [Hp Hv];
      [eauto | done | by simplify_map_eq].
  - apply AddMeetupForm_save_ok
      in Hs as (u & su & iv & inst2 & w1 & w2 & _ & Hu & Hsu & _ & Hv & Hc & Hi).
    rewrite Hu, Hsu.
    apply save_images_ok in Hi as (_ & _ & Hr & _).
    apply (stamped_lookup _ _ _ _ _ "created_by" su) in Hc as [Hp Hc];
      [split; [by apply (persisted_frame w2) | eauto] | done |].
    destruct (truthy iv).
    + destruct Hv as (md & j & s & i & _ & _ & _ & _ & -> & _).
      unfold with_meeting, with_owner. by simplify_map_eq.
    + destruct Hv as [-> _]. unfold with_owner. by simplify_map_eq.
  - apply AddMeetupForm_save_ok
      in Hs as (u & su & iv & inst2 & w1 & w2 & _ & Hu & Hsu & _ & Hv & Hc & Hi).
    rewrite Hu, Hsu.
    apply save_images_ok in Hi as (_ & _ & Hr & _).
    apply (stamped_lookup _ _ _ _ _ "leader" su) in Hc as [Hp Hc];
      [split; [by apply (persisted_frame w2) | eauto] | done |].
    destruct (truthy iv).
    + destruct Hv as (md & j & s & i & _ & _ & _ & _ & -> & _).
      unfold with_meeting, with_owner. by simplify_map_eq.
    + destruct Hv as [-> _]. unfold with_owner. by simplify_map_eq.
  - apply AddMeetupCommentForm_save_ok
      in Hs as (co & au & su & _ & Hco & Hau & Hsu & Hs).
    rewrite Hco.
    apply (stamped_lookup _ _ _ _ _ "content_object" co) in Hs as [Hp Hv];
      [eauto | done | by simplify_map_eq].
  - apply AddMeetupCommentForm_save_ok
      in Hs as (co & au & su & _ & Hco & Hau & Hsu & Hs).
    rewrite Hau, Hsu.
    apply (stamped_lookup _ _ _ _ _ "author" su) in Hs as [Hp Hv];
      [eauto | done | by simplify_map_eq].
  - apply RsvpForm_save_ok in Hs as (u & su & m & _ & Hu & Hsu & Hm & Hs).
    rewrite Hu, Hsu.
    apply (stamped_lookup _ _ _ _ _ "user" su) in Hs as [Hp Hv];
      [eauto | done | by simplify_map_eq].
  - apply RsvpForm_save_ok in Hs as (u & su & m & _ & Hu & Hsu & Hm & Hs).
    rewrite Hm.
    apply (stamped_lookup _ _ _ _ _ "meetup" m) in Hs as [Hp Hv];
      [eauto | done | by simplify_map_eq].
  - apply AddSupportRequestForm_save_ok
      in Hs as (u & su & m & _ & Hu & Hsu & Hm & Hs).
    rewrite Hu, Hsu.
    apply (stamped_lookup _ _ _ _ _ "volunteer" su) in Hs as [Hp Hv];
      [eauto | done | by simplify_map_eq].
  - apply AddSupportRequestForm_save_ok
      in Hs as (u & su & m & _ & Hu & Hsu & Hm & Hs).
    rewrite Hm.
    apply (stamped_lookup _ _ _ _ _ "meetup" m) in Hs as [Hp Hv];
      [eauto | done | by simplify_map_eq].
  - apply AddSupportRequestCommentForm_save_ok
      in Hs as (co & au & su & _ & Hco & Hau & Hsu & Hs).
    rewrite Hco.
    apply (stamped_lookup _ _ _ _ _ "content_object" co) in Hs as [Hp Hv];
      [eauto | done | by simplify_map_eq].
  - apply AddSupportRequestCommentForm_save_ok
      in Hs as (co & au & su & _ & Hco & Hau & Hsu & Hs).
    rewrite Hau, Hsu.
    apply (stamped_lookup _ _ _ _ _ "author" su) in Hs as [Hp Hv];
      [eauto | done | by simplify_map_eq].
  - apply RequestVirtualMeetupForm_save_ok in Hs as (u & su & _ & Hu & Hsu & Hs).
    rewrite Hu, Hsu.
    apply (stamped_lookup _ _ _ _ _ "created_by" su) in Hs as [Hp Hv];
      [eauto | done | by simplify_map_eq].
Qed.

Lemma creating_saves_stamp_ownership_witness :
  exists inst w',
    save sample_env RsvpForm sample_form true empty_world = (Ok inst, w')
    /\ persisted w' "Rsvp" inst
    /\ inst !! "user" = Some (VObj "SystersUser" 7)
    /\ inst !! "meetup" = Some (VObj "Meetup" 3).
Proof.
  destruct (Model_save_total "Rsvp"
              (<["meetup" := VObj "Meetup" 3]>
                 (<["user" := VObj "SystersUser" 7]> (form_instance sample_form)))
              empty_world) as (inst & w' & Hm).
  assert (Hs : save sample_env RsvpForm sample_form true empty_world
               = (Ok inst, w')).
  { rewrite <- Hm.
    by apply (RsvpForm_save_run sample_env sample_form true empty_world
                (VObj "User" 1)). }
  destruct (creating_saves_stamp_ownership
              sample_env RsvpForm sample_form inst empty_world w' Hs)
    as [H _].
  destruct (H "user" (FromSystersUser "user")) as (Hp & v & Hv & Hu);
    [simpl; repeat constructor |].
  destruct (H "meetup" (FromAttr "meetup")) as (_ & v' & Hv' & Hmt);
    [simpl; repeat constructor |].
  exists inst, w'. split; [exact Hs |]. split; [exact Hp |].
  split.
  - rewrite Hu. rewrite <- Hv. reflexivity.
  - rewrite Hmt. rewrite <- Hv'. reflexivity.
Defined.

(** Each class with a stamping [save] does stamp: on [sample_form] the
    persisted row carries an ownership attribute that the instance did not
    have. *)
Lemma stamps_by_run (E : Env) (c : FormClass) (self : Form) (w : World)
    (i : dict) (f : string) (v : value) :
  save E c self true w = Model_save (Meta_model c) i w ->
  f ∈ ownership_fields ->
  i !! f = Some v ->
  form_instance self !! f = None ->
  stamps_ownership c.
Proof.
  intros Hs Hf Hi Hnone.
  destruct (Model_save_total (Meta_model c) i w) as (inst & w' & Hm).
  exists E, self, w, w', inst, f. split; [done |].
  split; [by rewrite Hs |].
  apply Model_save_ok in Hm as (Hp & Hfr & _). split; [done |].
  rewrite (Hfr f (ownership_not_id f Hf)), Hi, Hnone. discriminate.
Qed.

Lemma stamping_classes_stamp (c : FormClass) :
  stamped c <> [] -> stamps_ownership c.
Proof.
  intros Hc.
  destruct c; try (by destruct Hc).
  - apply (stamps_by_run sample_env RequestMeetupForm sample_form empty_world _ "created_by"
             (VObj "SystersUser" 7)
             (RequestMeetupForm_save_run sample_env sample_form true empty_world
                (VObj "User" 1) _ eq_refl eq_refl eq_refl));
      [unfold ownership_fields; repeat constructor | reflexivity..].
  - apply (stamps_by_run sample_env AddMeetupForm sample_form empty_world _ "leader"
             (VObj "SystersUser" 7)
             (AddMeetupForm_save_run sample_env sample_form empty_world
                (VObj "User" 1) _ (VBool false) VNone
                eq_refl eq_refl eq_refl eq_refl eq_refl eq_refl eq_refl));
      [unfold ownership_fields; repeat constructor | reflexivity..].
  - apply (stamps_by_run sample_env AddMeetupCommentForm sample_form empty_world _ "author"
             (VObj "SystersUser" 7)
             (AddMeetupCommentForm_save_run sample_env sample_form true
                empty_world (VObj "Meetup" 3) (VObj "User" 1) _
                eq_refl eq_refl eq_refl eq_refl));
      [unfold ownership_fields; repeat constructor | reflexivity..].
  - apply (stamps_by_run sample_env RsvpForm sample_form empty_world _ "user"
             (VObj "SystersUser" 7)
             (RsvpForm_save_run sample_env sample_form true empty_world
                (VObj "User" 1) _ (VObj "Meetup" 3)
                eq_refl eq_refl eq_refl eq_refl));
      [unfold ownership_fields; repeat constructor | reflexivity..].
  - apply (stamps_by_run sample_env AddSupportRequestForm sample_form empty_world _ "volunteer"
             (VObj "SystersUser" 7)
             (AddSupportRequestForm_save_run sample_env sample_form true
                empty_world (VObj "User" 1) _ (VObj "Meetup" 3)
                eq_refl eq_refl eq_refl eq_refl));
      [unfold ownership_fields; repeat constructor | reflexivity..].
  - apply (stamps_by_run sample_env AddSupportRequestCommentForm sample_form empty_world _ "author"
             (VObj "SystersUser" 7)
             (AddSupportRequestCommentForm_save_run sample_env sample_form true
                empty_world (VObj "Meetup" 3) (VObj "User" 1) _
                eq_refl eq_refl eq_refl eq_refl));
      [unfold ownership_fields; repeat constructor | reflexivity..].
  - apply (stamps_by_run sample_env RequestVirtualMeetupForm sample_form empty_world _ "created_by"
             (VObj "SystersUser" 7)
             (RequestVirtualMeetupForm_save_run sample_env sample_form true
                empty_world (VObj "User" 1) _ eq_refl eq_refl eq_refl));
      [unfold ownership_fields; repeat constructor | reflexivity..].
Qed.

(** The classes that stamp ownership are exactly those with a non-empty
    [stamped] table. *)
Lemma stamps_ownership_iff (c : FormClass) :
  stamps_ownership c <-> stamped c <> [].
Proof.
  split; [| apply stamping_classes_stamp].
  intros (E & self & w & w' & inst & f & Hf & Hs & _ & Hne) Hc.
  apply Hne.
  by apply (unstamped_save_keeps_ownership E c self true inst w w').
Qed.

(** ** Validation on edit *)

Lemma clean_field_plain (E : Env) (c : FormClass)
    (parsed : string -> result value) (self : Form) (name : string)
    (v : value) (w : World) :
  clean_hook E c name = None ->
  parsed name = Ok v ->
  clean_field E c parsed self name w = (Ok (set_cleaned self name v), w).
Proof. intros Hh Hp. unfold clean_field. by rewrite Hp, Hh. Qed.





(** ** Validation on creation *)

Lemma clean_field_errors (E : Env) (c : FormClass)
    (parsed : string -> result value) (self self' : Form) (name : string)
    (w w' : World) :
  clean_field E c parsed self name w = (Ok self', w') ->
  errors self <> [] -> errors self' <> [].
Proof.
  unfold clean_field. intros H Hne.
  assert (Hadd : forall s n e, errors s <> [] -> errors (add_error s n e) <> []).
  { intros s n e Hs. simpl. by destruct (errors s). }
  destruct (parsed name) as [v | e].
  - destruct (clean_hook E c name) as [hook |].
    + destruct (hook _ w) as [[v' | e'] w''].
      * by injection H as <- _.
      * destruct e'; try discriminate. injection H as <- _. by apply Hadd.
    + by injection H as <- _.
  - destruct e; try discriminate. injection H as <- _. by apply Hadd.
Qed.

(** Once an error is recorded the form is not accepted, whatever the
    remaining fields hold. *)
Lemma rejected_stays (E : Env) (c : FormClass)
    (parsed : string -> result value) (names : list string) (self : Form)
    (w : World) :
  errors self <> [] ->
  accepted (clean_fields_loop E c parsed names self w) = false.
Proof.
  revert self w. induction names as [| n names IH]; intros self w Hne; simpl.
  - unfold accepted. simpl. by destruct (errors self).
  - unfold bind.
    destruct (clean_field E c parsed self n w) as [[self' | e] w'] eqn:Hf;
      [| done].
    apply IH. by apply (clean_field_errors E c parsed self self' n w w').
Qed.

Lemma temporal_form_shape (E : Env) (c : FormClass) :
  c ∈ temporal_forms ->
  exists hd ht rest,
    clean_hook E c "date" = Some hd /\ clean_hook E c "time" = Some ht
    /\ clean_hook E c "title" = None /\ clean_hook E c "slug" = None
    /\ form_fields c = "title" :: "slug" :: "date" :: "time" :: rest.
Proof.
  unfold temporal_forms. intros Hc.
  repeat (apply elem_of_cons in Hc as [-> | Hc]);
    [| | | by apply elem_of_nil in Hc];
    eexists _, _, _; repeat split; reflexivity.
Qed.

Lemma date_hook_run (E : Env) (hook : Form -> M value) (c : FormClass)
    (self : Form) (w : World) (d : date) :
  c ∈ temporal_forms ->
  clean_hook E c "date" = Some hook ->
  cleaned_data self !! "date" = Some (VDate d) ->
  exists code,
    hook self w =
    if date_ltb d (dt_date (clock E (ticks w))) then
      (Raise (ValidationError "Date should not be before today's date." code),
       tick w)
    else (Ok (VDate d), tick w).
Proof.
  intros Hc Hh Hd. destruct (clean_date_hooks E c hook Hc Hh) as [code Heq].
  exists code. rewrite Heq.
  unfold bind, timezone_now, lift, dict_get, raise, ret, tick.
  rewrite Hd. simpl. by destruct (date_ltb d _).
Qed.

Lemma time_hook_run (E : Env) (hook : Form -> M value) (c : FormClass)
    (self : Form) (w : World) (t : time) :
  c ∈ temporal_forms ->
  clean_hook E c "time" = Some hook ->
  cleaned_data self !! "time" = Some (VTime t) ->
  cleaned_data self !! "date" = Some (VDate (dt_date (clock E (ticks w)))) ->
  exists code,
    hook self w =
    if time_ltb t (dt_time (clock E (S (ticks w)))) then
      (Raise (ValidationError
                "Time should not be a time that has already passed." code),
       tick (tick w))
    else (Ok (VTime t), tick (tick w)).
Proof.
  intros Hc Hh Ht Hd. destruct (clean_time_hooks E c hook Hc Hh) as [code Heq].
  exists code. rewrite Heq.
  unfold bind, timezone_now, lift, dict_get, raise, ret, tick, py_eq.
  rewrite Ht, Hd. simpl. rewrite bool_decide_eq_true_2 by reflexivity.
  simpl. by destruct (time_ltb t _).
Qed.

(** The three creating forms are subject to the temporal validation. *)
Lemma temporal_forms_validate (c : FormClass) :
  c ∈ temporal_forms -> temporal_validation c.
Proof.
  intros Hc E now parsed self w d t Hfz Hall Hd Ht Hcase.
  destruct (temporal_form_shape E c Hc)
    as (hd & ht & rest & Hhd & Hht & Hti & Hsl & Hff).
  destruct (Hall "title") as [v1 Hv1]. destruct (Hall "slug") as [v2 Hv2].
  unfold clean_fields. rewrite Hff.
  cbn [clean_fields_loop]. unfold bind at 1.
  rewrite (clean_field_plain E c parsed _ "title" v1 w Hti Hv1).
  unfold bind at 1.
  rewrite (clean_field_plain E c parsed _ "slug" v2 w Hsl Hv2).
  unfold bind at 1. unfold clean_field at 1. rewrite Hd, Hhd.
  match goal with
  | |- context [hd ?s w] =>
      destruct (date_hook_run E hd c s w d Hc Hhd) as [dcode ->];
      [apply lookup_insert_eq |]
  end.
  rewrite Hfz.
  destruct Hcase as [Hpast | [-> Hpassed]].
  - rewrite Hpast.
    apply (rejected_stays E c parsed ("time" :: rest)). simpl. discriminate.
  - rewrite date_ltb_irrefl.
    unfold bind at 1. unfold clean_field at 1. rewrite Ht, Hht.
    match goal with
    | |- context [ht ?s (tick w)] =>
        destruct (time_hook_run E ht c s (tick w) t Hc Hht) as [tcode ->]
    end.
    + apply lookup_insert_eq.
    + cbn [set_cleaned cleaned_data].
      rewrite (lookup_insert_ne _ "time" "date") by done.
      rewrite lookup_insert_eq. by rewrite Hfz.
    + rewrite Hfz, Hpassed. apply rejected_stays. simpl. discriminate.
Qed.

(** * Further properties of the forms *)

(** ** Constructors *)





(** ** Saves that fail *)

(** X2. Every [save] of the module begins with [ModelForm.save]: on a form
    with errors it raises ValueError and nothing has been written, no
    image deleted and no provider called. *)
Theorem save_refuses_invalid_form
    (E : Env) (c : FormClass) (self : Form) (commit : bool) (w : World) :
  errors self <> [] ->
  save E c self commit w = (Raise ValueError, w).
Proof.
  intros He.
  destruct c; cbn [save];
    unfold RequestMeetupForm_save, AddMeetupForm_save, EditMeetupForm_save,
      AddMeetupCommentForm_save, RsvpForm_save, AddSupportRequestForm_save,
      AddSupportRequestCommentForm_save, PastMeetup_save,
      RequestVirtualMeetupForm_save, bind, ModelForm_save, raise;
    by destruct (errors self).
Qed.

Lemma save_refuses_invalid_form_witness :
  let self :=
    mkForm ∅ edited_meetup (<["images" := VNone]> ∅)
           [("date", ValidationError "Enter a valid date." (Some "invalid"))] in
  save sample_env EditMeetupForm self true empty_world
  = (Raise ValueError, empty_world).
Proof.
  intros self.
  apply (save_refuses_invalid_form sample_env EditMeetupForm self true empty_world).
  discriminate.
Defined.

Ltac run_to_lookup :=
  unfold bind, ModelForm_save, lift, getattr, SystersUser_objects_get,
    setattr, ret, raise;
  cbn [self_attrs form_instance cleaned_data errors] in *.

(** X3. A form built by its constructor for a user who has no SystersUser
    row cannot be saved: [save] raises DoesNotExist, and nothing has been
    written and no provider called. *)
Theorem save_needs_a_systers_user
    (E : Env) (c : FormClass) (args : list value) (kwargs : dict)
    (k : string) (u : value) (self : Form) (commit : bool) (w : World) :
  user_kwarg c = Some k ->
  kwargs !! k = Some u ->
  systers_user E u = None ->
  form_init E c args kwargs = Ok self ->
  errors self = [] ->
  save E c self commit w = (Raise DoesNotExist, w).
Proof.
  intros Hk Hu Hnone Hi He.
  destruct c; try discriminate Hk; injection Hk as <-;
    cbn [form_init save] in *.
  - unfold RequestMeetupForm_init, dict_pop in Hi. rewrite Hu in Hi.
    injection Hi as <-. unfold RequestMeetupForm_save. run_to_lookup.
    rewrite He. cbv beta iota. rewrite lookup_insert_eq. cbv beta iota.
    by rewrite Hnone.
  - unfold AddMeetupForm_init, dict_pop in Hi. rewrite Hu in Hi.
    destruct (delete "created_by" kwargs !! "leader"); [| discriminate].
    injection Hi as <-. unfold AddMeetupForm_save. run_to_lookup.
    rewrite He. cbv beta iota.
    rewrite (lookup_insert_ne _ "leader" "created_by") by done.
    rewrite lookup_insert_eq. cbv beta iota. by rewrite Hnone.
  - unfold AddMeetupCommentForm_init, dict_pop in Hi.
    destruct (kwargs !! "content_object"); [| discriminate].
    rewrite (lookup_delete_ne kwargs "content_object" "author") in Hi by done.
    rewrite Hu in Hi. injection Hi as <-.
    unfold AddMeetupCommentForm_save. run_to_lookup.
    rewrite He. cbv beta iota.
    rewrite (lookup_insert_ne _ "author" "content_object") by done.
    rewrite !lookup_insert_eq. cbv beta iota. by rewrite Hnone.
  - unfold RsvpForm_init, dict_pop in Hi. rewrite Hu in Hi.
    destruct (delete "user" kwargs !! "meetup"); [| discriminate].
    injection Hi as <-. unfold RsvpForm_save. run_to_lookup.
    rewrite He. cbv beta iota.
    rewrite (lookup_insert_ne _ "meetup" "user") by done.
    rewrite lookup_insert_eq. cbv beta iota. by rewrite Hnone.
  - unfold AddSupportRequestForm_init, dict_pop in Hi. rewrite Hu in Hi.
    destruct (delete "volunteer" kwargs !! "meetup"); [| discriminate].
    injection Hi as <-. unfold AddSupportRequestForm_save. run_to_lookup.
    rewrite He. cbv beta iota.
    rewrite (lookup_insert_ne _ "meetup" "volunteer") by done.
    rewrite lookup_insert_eq. cbv beta iota. by rewrite Hnone.
  - unfold AddSupportRequestCommentForm_init, dict_pop in Hi.
    destruct (kwargs !! "content_object"); [| discriminate].
    rewrite (lookup_delete_ne kwargs "content_object" "author") in Hi by done.
    rewrite Hu in Hi. injection Hi as <-.
    unfold AddSupportRequestCommentForm_save. run_to_lookup.
    rewrite He. cbv beta iota.
    rewrite (lookup_insert_ne _ "author" "content_object") by done.
    rewrite !lookup_insert_eq. cbv beta iota. by rewrite Hnone.
  - unfold RequestVirtualMeetupForm_init, dict_pop in Hi. rewrite Hu in Hi.
    injection Hi as <-. unfold RequestVirtualMeetupForm_save. run_to_lookup.
    rewrite He. cbv beta iota. rewrite lookup_insert_eq. cbv beta iota.
    by rewrite Hnone.
Qed.

Lemma save_needs_a_systers_user_witness :
  exists self,
    form_init sample_env RequestMeetupForm []
      (<["created_by" := VObj "User" 2]> ∅) = Ok self
    /\ save sample_env RequestMeetupForm self true empty_world
       = (Raise DoesNotExist, empty_world).
Proof.
  eexists. split; [reflexivity |].
  apply (save_needs_a_systers_user sample_env RequestMeetupForm []
           (<["created_by" := VObj "User" 2]> ∅) "created_by" (VObj "User" 2));
    reflexivity.
Defined.

(** ** Saves without commit *)

Lemma bind_keeps {A B X} (proj : World -> X) (m : M A) (k : A -> M B) (w : World) :
  proj (snd (m w)) = proj w ->
  (forall a w1, m w = (Ok a, w1) -> proj (snd (k a w1)) = proj w1) ->
  proj (snd (bind m k w)) = proj w.
Proof.
  unfold bind. destruct (m w) as [[a | e] w1]; simpl; intros H1 H2; [| done].
  by rewrite (H2 a w1 eq_refl).
Qed.

Lemma save_images_keeps_rows (self : Form) (inst : dict) (w : World) :
  let w' := snd (save_images self inst w) in
  (rows w', next_pk w') = (rows w, next_pk w).
Proof.
  cbv zeta.
  destruct (cleaned_data self !! "images") as [v |] eqn:Hv.
  2: { unfold save_images, bind, lift, dict_item. by rewrite Hv. }
  rewrite (save_images_run self inst v w Hv).
  destruct (truthy v); [| done].
  destruct v as [| | | | | | | fs]; try done.
  destruct (pk_of inst) as [pk |] eqn:Hpk.
  - by rewrite (for_each_create fs inst pk w Hpk).
  - rewrite (for_each_create_unsaved fs inst w Hpk). by destruct fs.
Qed.

Lemma AddMeetupForm_uncommitted_rows (E : Env) (self : Form) (w : World) :
  let w' := snd (AddMeetupForm_save E self false w) in
  (rows w', next_pk w') = (rows w, next_pk w).
Proof.
  cbv zeta. unfold AddMeetupForm_save, setattr.
  apply (bind_keeps (fun w => (rows w, next_pk w))).
  { unfold ModelForm_save. by destruct (errors self). }
  intros i0 w0 _.
  apply (bind_keeps (fun w => (rows w, next_pk w))); [done |]. intros cb ? _.
  apply (bind_keeps (fun w => (rows w, next_pk w))).
  { unfold SystersUser_objects_get. by destruct (systers_user E cb). }
  intros su ? _.
  apply (bind_keeps (fun w => (rows w, next_pk w))); [done |]. intros cb' ? _.
  apply (bind_keeps (fun w => (rows w, next_pk w))).
  { unfold SystersUser_objects_get. by destruct (systers_user E cb'). }
  intros su' ? _.
  apply (bind_keeps (fun w => (rows w, next_pk w))); [done |]. intros iv ? _.
  apply (bind_keeps (fun w => (rows w, next_pk w))).
  { destruct (truthy iv); [| done].
    apply (bind_keeps (fun w => (rows w, next_pk w))); [done |]. intros md ? _.
    apply (bind_keeps (fun w => (rows w, next_pk w))); [done |]. intros j ? _.
    apply (bind_keeps (fun w => (rows w, next_pk w))); [done |]. intros s ? _.
    apply (bind_keeps (fun w => (rows w, next_pk w))); [done |]. done. }
  intros inst2 ? _.
  apply (bind_keeps (fun w => (rows w, next_pk w))); [done |]. intros inst3 ? _.
  apply (bind_keeps (fun w => (rows w, next_pk w)));
    [apply save_images_keeps_rows | done].
Qed.

(** X4. With [commit=False] a stamping [save] writes no row and uses no
    primary key, whatever its outcome; except for [AddMeetupForm], which
    may still call the provider and create image rows, it leaves the whole
    world as it was.  The instance it returns has the primary key, if any,
    that the form's instance had. *)
Theorem save_without_commit_writes_no_row
    (E : Env) (c : FormClass) (self : Form) (w : World) :
  stamped c <> [] ->
  rows (snd (save E c self false w)) = rows w
  /\ next_pk (snd (save E c self false w)) = next_pk w
  /\ (c <> AddMeetupForm -> snd (save E c self false w) = w)
  /\ forall inst w',
       save E c self false w = (Ok inst, w') ->
       inst !! "id" = form_instance self !! "id".
Proof.
  intros Hc.
  assert (Hsimple : forall (i inst : dict) (w0 w' : World),
             ret i w0 = (Ok inst, w') -> inst = i).
  { intros i inst w0 w' H. by apply ret_ok in H as [-> _]. }
  destruct c; try (by destruct Hc); cbn [save].
  - assert (Hw : snd (RequestMeetupForm_save E self false w) = w).
    { unfold RequestMeetupForm_save. run_to_lookup.
      destruct (errors self); [| done]. repeat case_match; by simplify_eq. }
    rewrite Hw. repeat split; try done.
    intros inst w' (u & su & _ & _ & _ & H)%RequestMeetupForm_save_ok.
    apply Hsimple in H as ->. by rewrite lookup_insert_ne.
  - pose proof (AddMeetupForm_uncommitted_rows E self w) as Hr.
    cbv zeta in Hr. injection Hr as Hr Hn. repeat split; try done.
    intros inst w' Hs.
    apply AddMeetupForm_save_ok
      in Hs as (u & su & iv & inst2 & w1 & w2 & _ & _ & _ & _ & Hv & Hcm & _).
    apply Hsimple in Hcm as ->.
    destruct (truthy iv).
    + destruct Hv as (md & j & s & i & _ & _ & _ & _ & -> & _).
      unfold with_meeting, with_owner. by rewrite !lookup_insert_ne.
    + destruct Hv as [-> _]. unfold with_owner. by rewrite !lookup_insert_ne.
  - assert (Hw : snd (AddMeetupCommentForm_save E self false w) = w).
    { unfold AddMeetupCommentForm_save. run_to_lookup.
      destruct (errors self); [| done]. repeat case_match; by simplify_eq. }
    rewrite Hw. repeat split; try done.
    intros inst w' (co & au & su & _ & _ & _ & _ & H)%AddMeetupCommentForm_save_ok.
    apply Hsimple in H as ->. by rewrite !lookup_insert_ne.
  - assert (Hw : snd (RsvpForm_save E self false w) = w).
    { unfold RsvpForm_save. run_to_lookup.
      destruct (errors self); [| done]. repeat case_match; by simplify_eq. }
    rewrite Hw. repeat split; try done.
    intros inst w' (u & su & m & _ & _ & _ & _ & H)%RsvpForm_save_ok.
    apply Hsimple in H as ->. by rewrite !lookup_insert_ne.
  - assert (Hw : snd (AddSupportRequestForm_save E self false w) = w).
    { unfold AddSupportRequestForm_save. run_to_lookup.
      destruct (errors self); [| done]. repeat case_match; by simplify_eq. }
    rewrite Hw. repeat split; try done.
    intros inst w' (u & su & m & _ & _ & _ & _ & H)%AddSupportRequestForm_save_ok.
    apply Hsimple in H as ->. by rewrite !lookup_insert_ne.
  - assert (Hw : snd (AddSupportRequestCommentForm_save E self false w) = w).
    { unfold AddSupportRequestCommentForm_save. run_to_lookup.
      destruct (errors self); [| done]. repeat case_match; by simplify_eq. }
    rewrite Hw. repeat split; try done.
    intros inst w'
      (co & au & su & _ & _ & _ & _ & H)%AddSupportRequestCommentForm_save_ok.
    apply Hsimple in H as ->. by rewrite !lookup_insert_ne.
  - assert (Hw : snd (RequestVirtualMeetupForm_save E self false w) = w).
    { unfold RequestVirtualMeetupForm_save. run_to_lookup.
      destruct (errors self); [| done]. repeat case_match; by simplify_eq. }
    rewrite Hw. repeat split; try done.
    intros inst w' (u & su & _ & _ & _ & H)%RequestVirtualMeetupForm_save_ok.
    apply Hsimple in H as ->. by rewrite !lookup_insert_ne.
Qed.

Lemma save_without_commit_writes_no_row_witness :
  exists inst,
    save sample_env RsvpForm sample_form false empty_world = (Ok inst, empty_world)
    /\ inst !! "id" = None.
Proof.
  assert (Hs : save sample_env RsvpForm sample_form false empty_world
               = (Ok (<["meetup" := VObj "Meetup" 3]>
                        (<["user" := VObj "SystersUser" 7]>
                           (form_instance sample_form))), empty_world)).
  { by apply (RsvpForm_save_run sample_env sample_form false empty_world
                (VObj "User" 1)). }
  eexists. split; [exact Hs |].
  destruct (save_without_commit_writes_no_row
              sample_env RsvpForm sample_form empty_world) as (_ & _ & _ & H).
  - discriminate.
  - rewrite (H _ _ Hs). reflexivity.
Defined.

(** ** The provider fails *)

(** X5. When [create_meetup] raises, or answers without one of the keys
    [join_url], [start_url], [id], [AddMeetupForm.save] raises the same
    error (the KeyError of the first missing key) before anything is
    saved: the call is in the provider's log, the database is as it
    was. *)
Theorem AddMeetupForm_provider_failure_writes_nothing
    (E : Env) (self : Form) (commit : bool) (w : World)
    (created_by su is_virtual : value) :
  errors self = [] ->
  self_attrs self !! "created_by" = Some created_by ->
  systers_user E created_by = Some su ->
  form_instance self !! "is_virtual" = Some is_virtual ->
  truthy is_virtual = true ->
  let sent := Call_create_meetup (with_owner su (form_instance self)) in
  (forall e, provider E (calls w) sent = Raise e ->
     AddMeetupForm_save E self commit w = (Raise e, called w sent))
  /\ (forall md k,
        provider E (calls w) sent = Ok md ->
        (k = "join_url" /\ md !! "join_url" = None)
        \/ (k = "start_url" /\ is_Some (md !! "join_url")
            /\ md !! "start_url" = None)
        \/ (k = "id" /\ is_Some (md !! "join_url")
            /\ is_Some (md !! "start_url") /\ md !! "id" = None) ->
        AddMeetupForm_save E self commit w = (Raise (KeyError k), called w sent)).
Proof.
  intros He Hu Hsu Hiv Htr sent. subst sent.
  assert (Hrun : AddMeetupForm_save E self commit w =
                 bind (bind (create_meetup E (with_owner su (form_instance self)))
                         (fun meet_data =>
                            bind (lift (dict_item meet_data "join_url"))
                              (fun join_url =>
                                 bind (lift (dict_item meet_data "start_url"))
                                   (fun start_url =>
                                      bind (lift (dict_item meet_data "id"))
                                        (fun id =>
                                           ret (with_meeting join_url start_url id
                                                  (with_owner su (form_instance self))))))))
                      (fun instance =>
                         bind (if commit then Model_save "Meetup" instance
                               else ret instance)
                           (fun instance =>
                              bind (save_images self instance)
                                (fun _ => ret instance))) w).
  { unfold AddMeetupForm_save, with_meeting, with_owner, setattr.
    unfold bind at 1, ModelForm_save. rewrite He. cbn [ret].
    unfold bind at 1, lift at 1, getattr at 1. rewrite Hu.
    unfold bind at 1, SystersUser_objects_get at 1. rewrite Hsu. cbn [ret].
    unfold bind at 1, lift at 1, getattr at 1. rewrite Hu.
    unfold bind at 1, SystersUser_objects_get at 1. rewrite Hsu. cbn [ret].
    unfold bind at 1, lift at 1, getattr at 1.
    rewrite !lookup_insert_ne by done. rewrite Hiv. cbv beta iota.
    rewrite Htr. reflexivity. }
  rewrite Hrun. unfold bind, create_meetup, provider_call, called, lift, dict_item.
  split.
  - intros e Hp. by rewrite Hp.
  - intros md k Hp Hcase. rewrite Hp.
    destruct Hcase as [[-> Hj] | [(-> & [j Hj] & Hs) | (-> & [j Hj] & [s Hs] & Hi)]].
    + by rewrite Hj.
    + by rewrite Hj, Hs.
    + by rewrite Hj, Hs, Hi.
Qed.

Lemma AddMeetupForm_provider_failure_writes_nothing_witness :
  exists w',
    AddMeetupForm_save offline_env virtual_form true empty_world
    = (Raise (ProviderError "offline"), w')
    /\ rows w' = ∅ /\ images w' = [].
Proof.
  destruct (AddMeetupForm_provider_failure_writes_nothing
              offline_env virtual_form true empty_world
              (VObj "User" 1) (VObj "SystersUser" 7) (VBool true)
              eq_refl eq_refl eq_refl eq_refl eq_refl) as [H _].
  eexists. split; [apply H; reflexivity |]. split; reflexivity.
Defined.

(** X6. [EditMeetupForm.save] does not undo what it has done when the
    provider fails: if [edit_meetup] raises, or [get_meetup] raises after
    it, the error comes out of [save] with the row of the meetup already
    written and its images already replaced. *)
Theorem EditMeetupForm_provider_failure_keeps_writes
    (E : Env) (self : Form) (w : World) (pk : Z) (v is_virtual : value) :
  errors self = [] ->
  pk_of (form_instance self) = Some pk ->
  cleaned_data self !! "images" = Some v ->
  truthy v = false \/ (exists fs, v = VFiles fs) ->
  form_instance self !! "is_virtual" = Some is_virtual ->
  truthy is_virtual = true ->
  let inst := form_instance self in
  let w1 := edited w pk inst v in
  (forall e, provider E (calls w) (Call_edit_meetup inst) = Raise e ->
     EditMeetupForm_save E self true w
     = (Raise e, called w1 (Call_edit_meetup inst)))
  /\ (forall md0 e,
        provider E (calls w) (Call_edit_meetup inst) = Ok md0 ->
        provider E (calls w ++ [Call_edit_meetup inst]) (Call_get_meetup inst)
        = Raise e ->
        EditMeetupForm_save E self true w
        = (Raise e, called (called w1 (Call_edit_meetup inst))
                           (Call_get_meetup inst)))
  /\ rows w1 !! ("Meetup", pk) = Some inst
  /\ images_of w1 pk = image_rows v pk.
Proof.
  intros He Hpk Hv Hcase Hiv Htr inst w1. subst inst w1.
  assert (Hrun : EditMeetupForm_save E self true w =
                 bind (edit_meetup E (form_instance self))
                   (fun _ =>
                      bind (get_meetup E (form_instance self))
                        (fun meet_data =>
                           bind (lift (dict_item meet_data "join_url"))
                             (fun join_url =>
                                bind (lift (dict_item meet_data "start_url"))
                                  (fun start_url =>
                                     bind (lift (dict_item meet_data "id"))
                                       (fun id =>
                                          ret (with_meeting join_url start_url id
                                                 (form_instance self)))))))
                   (edited w pk (form_instance self) v)).
  { unfold EditMeetupForm_save, with_meeting, setattr.
    unfold bind at 1, ModelForm_save, Model_save. rewrite He, Hpk.
    cbv beta iota. cbn [Meta_model].
    unfold bind at 1, MeetupImages_delete_of at 1.
    cbn [rows images calls next_pk ticks]. rewrite Hpk.
    unfold bind at 1.
    rewrite (save_images_saved self _ pk v _ Hpk Hv Hcase).
    cbn [rows images calls next_pk ticks].
    unfold bind at 1, lift at 1, getattr at 1. rewrite Hiv. cbv beta iota.
    rewrite Htr. reflexivity. }
  rewrite Hrun.
  unfold bind, edit_meetup, get_meetup, provider_call, called, edited.
  cbn [rows images calls next_pk ticks].
  split; [| split; [| split]].
  - intros e Hp. by rewrite Hp.
  - intros md0 e Hp0 Hp. by rewrite Hp0, Hp.
  - apply lookup_insert_eq.
  - unfold images_of. cbn [images].
    rewrite (list_filter_iff (fun r : string * Z => Some (snd r) <> Some pk)
               (fun r => snd r <> pk)) by (intros r; split; congruence).
    apply images_after_replace.
Qed.

Lemma EditMeetupForm_provider_failure_keeps_writes_witness :
  exists w',
    EditMeetupForm_save offline_env edit_form true
      (mkWorld ∅ [("a.png", 5)] [] 7 0)
    = (Raise (ProviderError "offline"), w')
    /\ rows w' !! ("Meetup", 5) = Some edited_meetup
    /\ images w' = [].
Proof.
  destruct (EditMeetupForm_provider_failure_keeps_writes
              offline_env edit_form (mkWorld ∅ [("a.png", 5)] [] 7 0) 5
              VNone (VBool true) eq_refl eq_refl eq_refl (or_introl eq_refl)
              eq_refl eq_refl) as (H & _ & Hrow & _).
  eexists. split; [apply H; reflexivity |]. split; [exact Hrow | reflexivity].
Defined.

(** X7. A successful [EditMeetupForm.save] on a virtual meetup has called
    the provider exactly twice, [edit_meetup] and then [get_meetup], both
    with the instance as it was saved; the link, start URL and meeting id
    of the returned instance are those of the answer of [get_meetup], the
    answer of [edit_meetup] being dropped.  On a meetup that is not
    virtual the provider is not called and the instance is returned as it
    was saved. *)
Theorem EditMeetupForm_save_provider_calls
    (E : Env) (self : Form) (commit : bool) (inst : dict) (w w' : World) :
  EditMeetupForm_save E self commit w = (Ok inst, w') ->
  exists inst0 is_virtual,
    (forall f, f <> "id" -> inst0 !! f = form_instance self !! f)
    /\ (commit = true -> persisted w' "Meetup" inst0)
    /\ inst0 !! "is_virtual" = Some is_virtual
    /\ if truthy is_virtual then
         exists md,
           provider E (calls w ++ [Call_edit_meetup inst0])
             (Call_get_meetup inst0) = Ok md
           /\ calls w' =
              (calls w ++ [Call_edit_meetup inst0; Call_get_meetup inst0])%list
           /\ inst !! "meet_link" = md !! "join_url"
           /\ inst !! "start_url" = md !! "start_url"
           /\ inst !! "meeting_id" = md !! "id"
           /\ forall f, f <> "meet_link" -> f <> "start_url" ->
                f <> "meeting_id" -> inst !! f = inst0 !! f
       else calls w' = calls w /\ inst = inst0.
Proof.
  intros (inst0 & w0 & w1 & iv & H0 & Hi & Hiv & Hv)%EditMeetupForm_save_ok.
  pose proof (ModelForm_save_fields _ _ _ _ _ _ H0) as Hf.
  pose proof (ModelForm_save_frame EditMeetupForm self commit w) as Hc0.
  rewrite H0 in Hc0. simpl in Hc0.
  apply save_images_ok in Hi as (_ & _ & Hr1 & Hc1 & _). simpl in Hr1, Hc1.
  exists inst0, iv. split; [done |]. split; [| split; [done |]].
  - intros ->. apply ModelForm_save_ok in H0 as [_ H0].
    apply Model_save_ok in H0 as (Hp & _).
    apply (persisted_frame w0); [| done]. rewrite <- Hr1.
    destruct (truthy iv).
    + by destruct Hv as (? & ? & ? & ? & ? & _ & _ & _ & _ & _ & _ & ->).
    + by destruct Hv as [_ ->].
  - destruct (truthy iv).
    + destruct Hv as (md0 & md & j & s & i & _ & Hmd & Hj & Hs & Hid & -> & ->).
      rewrite Hc1, Hc0 in Hmd. exists md. split; [done |].
      split; [simpl; rewrite Hc1, Hc0; by rewrite <- app_assoc |].
      unfold with_meeting. rewrite Hj, Hs, Hid.
      repeat split; try by simplify_map_eq.
      intros f ? ? ?. by rewrite !lookup_insert_ne.
    + destruct Hv as [-> ->]. by rewrite Hc1, Hc0.
Qed.

Lemma EditMeetupForm_save_provider_calls_witness :
  exists inst w',
    EditMeetupForm_save sample_env edit_form true empty_world = (Ok inst, w')
    /\ calls w' = [Call_edit_meetup edited_meetup; Call_get_meetup edited_meetup]
    /\ inst !! "start_url" = Some (VStr "https://meet/s/42").
Proof.
  assert (Hs : EditMeetupForm_save sample_env edit_form true empty_world
               = (Ok (with_meeting (VStr "https://meet/j/42")
                        (VStr "https://meet/s/42") (VInt 42) edited_meetup),
                  called (called (edited empty_world 5 edited_meetup VNone)
                                 (Call_edit_meetup edited_meetup))
                         (Call_get_meetup edited_meetup))).
  { apply (EditMeetupForm_save_run_virtual sample_env edit_form empty_world 5
             VNone (VBool true) _ _ _ sample_meeting sample_meeting);
      try reflexivity.
    by left. }
  destruct (EditMeetupForm_save_provider_calls
              sample_env edit_form true _ empty_world _ Hs)
    as (inst0 & iv & _ & _ & _ & _).
  eexists _, _. split; [exact Hs |]. split; reflexivity.
Defined.

(** ** Images *)

(** X8. The images of [EditMeetupForm.save] do not wait for [commit]: a
    successful [save(commit=False)] writes no row of the meetup, yet the
    image rows of the meetup have been deleted and those of the submitted
    images created. *)
Theorem EditMeetupForm_uncommitted_still_replaces_images
    (E : Env) (self : Form) (inst : dict) (w w' : World) :
  EditMeetupForm_save E self false w = (Ok inst, w') ->
  rows w' = rows w
  /\ next_pk w' = next_pk w
  /\ exists v,
       cleaned_data self !! "images" = Some v
       /\ forall pk, pk_of (form_instance self) = Some pk ->
            images w' =
            (filter (fun r => snd r <> pk) (images w) ++ image_rows v pk)%list
            /\ images_of w' pk = image_rows v pk.
Proof.
  intros (inst0 & w0 & w1 & iv & H0 & Hi & _ & Hv)%EditMeetupForm_save_ok.
  apply ModelForm_save_ok in H0 as [_ [-> ->]].
  pose proof (save_images_keeps_rows self (form_instance self)
                (mkWorld (rows w)
                   (filter (fun r => Some (snd r) <> pk_of (form_instance self))
                           (images w))
                   (calls w) (next_pk w) (ticks w))) as Hk.
  cbv zeta in Hk. rewrite Hi in Hk. simpl in Hk. injection Hk as Hr Hn.
  apply save_images_ok in Hi as (v & Hcd & _ & _ & _ & Himg & _).
  assert (Hw : rows w' = rows w1 /\ images w' = images w1
               /\ next_pk w' = next_pk w1).
  { destruct (truthy iv).
    - destruct Hv as (? & ? & ? & ? & ? & _ & _ & _ & _ & _ & _ & ->). done.
    - by destruct Hv as [_ ->]. }
  destruct Hw as (Hr' & Hi' & Hn').
  split; [by rewrite Hr' |]. split; [by rewrite Hn' |].
  exists v. split; [done |]. intros pk Hpk.
  assert (Himg' : images w' =
                  (filter (fun r => snd r <> pk) (images w) ++ image_rows v pk)%list).
  { rewrite Hi', (Himg pk Hpk). simpl. rewrite Hpk. f_equal.
    apply list_filter_iff. intros r. split; congruence. }
  split; [done |]. unfold images_of. rewrite Himg'. apply images_after_replace.
Qed.

Lemma EditMeetupForm_save_run_uncommitted (E : Env) (self : Form) (w : World)
    (pk : Z) (v is_virtual : value) :
  errors self = [] ->
  pk_of (form_instance self) = Some pk ->
  cleaned_data self !! "images" = Some v ->
  truthy v = false \/ (exists fs, v = VFiles fs) ->
  form_instance self !! "is_virtual" = Some is_virtual ->
  truthy is_virtual = false ->
  EditMeetupForm_save E self false w =
  (Ok (form_instance self),
   mkWorld (rows w)
           (filter (fun r => Some (snd r) <> Some pk) (images w)
            ++ image_rows v pk)
           (calls w) (next_pk w) (ticks w)).
Proof.
  intros He Hpk Hv Hcase Hiv Htr.
  unfold EditMeetupForm_save, bind, ModelForm_save, MeetupImages_delete_of,
    lift, getattr, ret.
  rewrite He. cbv beta iota. rewrite Hpk.
  rewrite (save_images_saved self _ pk v _ Hpk Hv Hcase).
  cbn [rows images calls next_pk ticks].
  rewrite Hiv. cbv beta iota. rewrite Htr. reflexivity.
Qed.

Lemma EditMeetupForm_uncommitted_still_replaces_images_witness :
  let self :=
    mkForm ∅ (<["id" := VInt 5]> (<["is_virtual" := VBool false]> ∅))
           (<["images" := VFiles ["c.png"]]> ∅) [] in
  let w := mkWorld ∅ [("a.png", 5); ("b.png", 6)] [] 7 0 in
  exists inst w',
    EditMeetupForm_save sample_env self false w = (Ok inst, w')
    /\ rows w' = ∅
    /\ images w' = [("b.png", 6); ("c.png", 5)].
Proof.
  intros self w.
  pose proof (EditMeetupForm_save_run_uncommitted sample_env self w 5
                (VFiles ["c.png"]) (VBool false) eq_refl eq_refl eq_refl
                (or_intror (ex_intro _ ["c.png"] eq_refl)) eq_refl eq_refl) as Hs.
  destruct (EditMeetupForm_uncommitted_still_replaces_images
              sample_env self _ w _ Hs) as (Hr & _ & v & Hv & H).
  eexists _, _. split; [exact Hs |]. split; [exact Hr |].
  assert (v = VFiles ["c.png"]) as ->.
  { unfold self in Hv. cbn [cleaned_data] in Hv.
    rewrite lookup_insert_eq in Hv. congruence. }
  destruct (H 5 eq_refl) as [Himg _]. rewrite Himg. reflexivity.
Defined.

(** X9. [PastMeetup.save] adds images and removes none: after a
    successful save the [MeetupImages] table is the old one followed by
    one row per submitted image, so the images that the meetup had are
    kept.  It calls no provider, assigns no attribute of the instance, and
    with [commit] the instance is persisted. *)
Theorem PastMeetup_save_appends_images
    (self : Form) (commit : bool) (inst : dict) (w w' : World) :
  PastMeetup_save self commit w = (Ok inst, w') ->
  calls w' = calls w
  /\ (forall f, f <> "id" -> inst !! f = form_instance self !! f)
  /\ (commit = true -> persisted w' "Meetup" inst)
  /\ exists v,
       cleaned_data self !! "images" = Some v
       /\ (forall pk, pk_of inst = Some pk ->
             images w' = (images w ++ image_rows v pk)%list)
       /\ (pk_of inst = None -> images w' = images w).
Proof.
  intros (w0 & H0 & Hi)%PastMeetup_save_ok.
  pose proof (ModelForm_save_fields _ _ _ _ _ _ H0) as Hf.
  pose proof (ModelForm_save_frame PastMeetup self commit w) as Hc0.
  rewrite H0 in Hc0. simpl in Hc0.
  apply save_images_ok in Hi as (v & Hv & Hr & Hc & _ & Himg & Hnone).
  apply ModelForm_save_ok in H0 as [_ H0].
  assert (Hi0 : images w0 = images w).
  { destruct commit.
    - by apply Model_save_ok in H0 as (_ & _ & _ & ? & _).
    - by destruct H0 as [_ ->]. }
  split; [by rewrite Hc |]. split; [done |]. split.
  - intros ->. apply Model_save_ok in H0 as (Hp & _).
    by apply (persisted_frame w0).
  - exists v. split; [done |]. split.
    + intros pk Hpk. by rewrite (Himg pk Hpk), Hi0.
    + intros Hpk. destruct (Hnone Hpk) as [-> _]. done.
Qed.

Lemma PastMeetup_save_run (self : Form) (w : World) (pk : Z) (v : value) :
  errors self = [] ->
  pk_of (form_instance self) = Some pk ->
  cleaned_data self !! "images" = Some v ->
  truthy v = false \/ (exists fs, v = VFiles fs) ->
  PastMeetup_save self true w =
  (Ok (form_instance self),
   mkWorld (<[("Meetup", pk) := form_instance self]> (rows w))
           (images w ++ image_rows v pk) (calls w) (next_pk w) (ticks w)).
Proof.
  intros He Hpk Hv Hcase.
  unfold PastMeetup_save, bind, ModelForm_save, Model_save, ret.
  rewrite He, Hpk. cbv beta iota.
  rewrite (save_images_saved self _ pk v _ Hpk Hv Hcase). reflexivity.
Qed.

Lemma PastMeetup_save_appends_images_witness :
  let self :=
    mkForm ∅ (<["id" := VInt 5]> ∅) (<["images" := VFiles ["c.png"]]> ∅) [] in
  let w := mkWorld ∅ [("a.png", 5); ("b.png", 6)] [] 7 0 in
  exists inst w',
    PastMeetup_save self true w = (Ok inst, w')
    /\ images w' = [("a.png", 5); ("b.png", 6); ("c.png", 5)].
Proof.
  intros self w.
  pose proof (PastMeetup_save_run self w 5 (VFiles ["c.png"]) eq_refl eq_refl
                eq_refl (or_intror (ex_intro _ ["c.png"] eq_refl))) as Hs.
  destruct (PastMeetup_save_appends_images self true _ w _ Hs)
    as (_ & _ & _ & v & Hv & H & _).
  eexists _, _. split; [exact Hs |].
  assert (v = VFiles ["c.png"]) as ->.
  { unfold self in Hv. cbn [cleaned_data] in Hv.
    rewrite lookup_insert_eq in Hv. congruence. }
  rewrite (H 5 eq_refl). reflexivity.
Defined.

(** X10. [AddMeetupForm.save] creates the image rows after the instance
    is saved, for the primary key the instance then has: the
    [MeetupImages] table becomes the old one followed by one row per
    submitted image, and with [commit] the instance always has a key.  A
    successful save of an instance that has none (no commit, new meetup)
    can only have had no image to create. *)
Theorem AddMeetupForm_save_appends_images
    (E : Env) (self : Form) (commit : bool) (inst : dict) (w w' : World) :
  AddMeetupForm_save E self commit w = (Ok inst, w') ->
  exists v,
    cleaned_data self !! "images" = Some v
    /\ (forall pk, pk_of inst = Some pk ->
          images w' = (images w ++ image_rows v pk)%list)
    /\ (commit = true -> is_Some (pk_of inst))
    /\ (pk_of inst = None -> files_of v = [] /\ images w' = images w).
Proof.
  intros Hs.
  apply AddMeetupForm_save_ok
    in Hs as (u & su & iv & inst2 & w1 & w2 & _ & _ & _ & _ & Hv & Hc & Hi).
  assert (Hi1 : images w1 = images w).
  { destruct (truthy iv).
    - by destruct Hv as (? & ? & ? & ? & _ & _ & _ & _ & _ & ->).
    - by destruct Hv as [_ ->]. }
  apply commit_ok in Hc as (Hp & _ & Hi2 & _).
  apply save_images_ok in Hi as (v & Hcd & _ & _ & _ & Himg & Hnone).
  exists v. split; [done |]. split; [| split].
  - intros pk Hpk. by rewrite (Himg pk Hpk), Hi2, Hi1.
  - intros Hcm. destruct (Hp Hcm) as (pk & Hpk & _). by exists pk.
  - intros Hpk. destruct (Hnone Hpk) as [Him Hfs].
    split; [done |]. by rewrite Him, Hi2, Hi1.
Qed.

Lemma AddMeetupForm_save_run_images (E : Env) (self : Form) (w : World)
    (created_by su is_virtual v : value) :
  errors self = [] ->
  self_attrs self !! "created_by" = Some created_by ->
  systers_user E created_by = Some su ->
  form_instance self !! "is_virtual" = Some is_virtual ->
  truthy is_virtual = false ->
  form_instance self !! "id" = None ->
  cleaned_data self !! "images" = Some v ->
  truthy v = false \/ (exists fs, v = VFiles fs) ->
  let inst := <["id" := VInt (next_pk w)]> (with_owner su (form_instance self)) in
  AddMeetupForm_save E self true w =
  (Ok inst,
   mkWorld (<[("Meetup", next_pk w) := inst]> (rows w))
           (images w ++ image_rows v (next_pk w)) (calls w)
           (next_pk w + 1) (ticks w)).
Proof.
  intros He Hu Hsu Hiv Htr Hid Hv Hcase inst. subst inst.
  assert (Hpk : pk_of (with_owner su (form_instance self)) = None).
  { unfold pk_of, with_owner. rewrite !lookup_insert_ne by done. by rewrite Hid. }
  assert (Hpk' : pk_of (<["id" := VInt (next_pk w)]>
                          (with_owner su (form_instance self)))
                 = Some (next_pk w)).
  { unfold pk_of. by rewrite lookup_insert_eq. }
  unfold AddMeetupForm_save, setattr, bind, ModelForm_save, lift,
    getattr, SystersUser_objects_get, ret.
  rewrite He, Hu. cbv beta iota. rewrite Hsu. cbv beta iota.
  rewrite !lookup_insert_ne by done. rewrite Hiv. cbv beta iota. rewrite Htr.
  fold (with_owner su (form_instance self)).
  unfold Model_save, setattr. cbn [Meta_model]. rewrite Hpk.
  rewrite (save_images_saved self _ (next_pk w) v _ Hpk' Hv Hcase).
  reflexivity.
Qed.

Lemma AddMeetupForm_save_appends_images_witness :
  let self :=
    mkForm (<["created_by" := VObj "User" 1]> ∅)
           (<["is_virtual" := VBool false]> ∅)
           (<["images" := VFiles ["a.png"; "b.png"]]> ∅) [] in
  let w := mkWorld ∅ [("old.png", 2)] [] 3 0 in
  exists inst w',
    AddMeetupForm_save sample_env self true w = (Ok inst, w')
    /\ images w' = [("old.png", 2); ("a.png", 3); ("b.png", 3)].
Proof.
  intros self w.
  pose proof (AddMeetupForm_save_run_images sample_env self w
                (VObj "User" 1) (VObj "SystersUser" 7) (VBool false)
                (VFiles ["a.png"; "b.png"]) eq_refl eq_refl eq_refl eq_refl
                eq_refl eq_refl eq_refl
                (or_intror (ex_intro _ ["a.png"; "b.png"] eq_refl))) as Hs.
  cbv zeta in Hs.
  destruct (AddMeetupForm_save_appends_images sample_env self true _ w _ Hs)
    as (v & Hv & H & _).
  eexists _, _. split; [exact Hs |].
  assert (v = VFiles ["a.png"; "b.png"]) as ->.
  { unfold self in Hv. cbn [cleaned_data] in Hv.
    rewrite lookup_insert_eq in Hv. congruence. }
  rewrite (H 3); [reflexivity |].
  unfold pk_of. by rewrite lookup_insert_eq.
Defined.

(** ** Validation as a whole *)

Lemma same_store_refl (w : World) : same_store w w.
Proof. by unfold same_store. Qed.

Lemma same_store_trans (w1 w2 w3 : World) :
  same_store w1 w2 -> same_store w2 w3 -> same_store w1 w3.
Proof.
  unfold same_store. intros (-> & -> & -> & ->) (-> & -> & -> & ->). done.
Qed.

Lemma same_store_tick (w : World) : same_store w (tick w).
Proof. by unfold same_store, tick. Qed.

Lemma clean_hook_other (E : Env) (c : FormClass) (name : string) :
  name <> "date" -> name <> "time" -> clean_hook E c name = None.
Proof.
  intros Hd Ht. apply String.eqb_neq in Hd, Ht.
  destruct c; simpl; by rewrite ?Hd, ?Ht.
Qed.

(** The hooks of the module read the clock and touch nothing else. *)
Lemma clean_hook_store (E : Env) (c : FormClass) (name : string)
    (hook : Form -> M value) (self : Form) (w : World) :
  clean_hook E c name = Some hook -> same_store w (snd (hook self w)).
Proof.
  intros Hh.
  destruct c; simpl in Hh; try discriminate;
    destruct (String.eqb name "date"); try (injection Hh as <-);
    try (destruct (String.eqb name "time"); [injection Hh as <- | discriminate]);
    unfold RequestMeetupForm_clean_date, RequestMeetupForm_clean_time,
      AddMeetupForm_clean_date, AddMeetupForm_clean_time,
      RequestVirtualMeetupForm_clean_date, RequestVirtualMeetupForm_clean_time,
      bind, timezone_now, lift, raise, ret, same_store;
    repeat case_match; simplify_eq; done.
Qed.

Lemma clean_field_store (E : Env) (c : FormClass)
    (parsed : string -> result value) (self : Form) (name : string) (w : World) :
  same_store w (snd (clean_field E c parsed self name w)).
Proof.
  unfold clean_field.
  destruct (parsed name) as [v | e].
  - destruct (clean_hook E c name) as [hook |] eqn:Hh; [| apply same_store_refl].
    pose proof (clean_hook_store E c name hook (set_cleaned self name v) w Hh)
      as Hs.
    destruct (hook _ w) as [[v' | e'] w']; [done |]. by destruct e'.
  - destruct e; apply same_store_refl.
Qed.

Lemma clean_fields_loop_store (E : Env) (c : FormClass)
    (parsed : string -> result value) (names : list string) (self : Form)
    (w : World) :
  same_store w (snd (clean_fields_loop E c parsed names self w)).
Proof.
  revert self w. induction names as [| n names IH]; intros self w; simpl.
  - apply same_store_refl.
  - unfold bind.
    pose proof (clean_field_store E c parsed self n w) as Hs.
    destruct (clean_field E c parsed self n w) as [[self' | e] w']; [| done].
    apply (same_store_trans w w'); [done | apply IH].
Qed.

(** X13. Validation never writes: whatever the class, the submission and
    the outcome, cleaning the fields leaves the rows, the images, the
    provider's log and the key counter as they were; only the clock has
    been read. *)
Theorem validation_leaves_the_store
    (E : Env) (c : FormClass) (parsed : string -> result value)
    (self : Form) (w : World) :
  same_store w (snd (clean_fields E c parsed self w)).
Proof. unfold clean_fields. apply clean_fields_loop_store. Qed.

Lemma clean_fields_loop_no_hooks (E : Env) (c : FormClass)
    (parsed : string -> result value) (names : list string) (self : Form)
    (w : World) :
  (forall name, name ∈ names -> clean_hook E c name = None) ->
  (forall name, name ∈ names -> exists v, parsed name = Ok v) ->
  exists self',
    clean_fields_loop E c parsed names self w = (Ok self', w)
    /\ errors self' = errors self
    /\ (forall name, name ∉ names ->
          cleaned_data self' !! name = cleaned_data self !! name).
Proof.
  revert self. induction names as [| n names IH]; intros self Hh Hp; simpl.
  - exists self. done.
  - destruct (Hp n) as [v Hv]; [by left |].
    unfold bind.
    rewrite (clean_field_plain E c parsed self n v w (Hh n ltac:(by left)) Hv).
    destruct (IH (set_cleaned self n v)) as (self' & Hrun & He & Hout).
    { intros name Hname. apply Hh. by right. }
    { intros name Hname. apply Hp. by right. }
    exists self'. split; [done |]. split; [done |].
    intros name Hname. apply not_elem_of_cons in Hname as [Hne Hname].
    rewrite (Hout name Hname). simpl. by rewrite lookup_insert_ne.
Qed.

Lemma temporal_form_rest (E : Env) (c : FormClass) :
  c ∈ temporal_forms ->
  exists rest,
    form_fields c = "title" :: "slug" :: "date" :: "time" :: rest
    /\ ("date" ∉ rest) /\ ("time" ∉ rest).
Proof.
  unfold temporal_forms. intros Hc.
  repeat (apply elem_of_cons in Hc as [-> | Hc]);
    [| | | by apply elem_of_nil in Hc];
    eexists; (split; [reflexivity |]);
    split; intros H;
      repeat (apply elem_of_cons in H as [H | H]; [discriminate |]);
      by apply elem_of_nil in H.
Qed.

(** [clean_date] on a past date, with the [code] of the class. *)
Lemma date_hook_rejects (E : Env) (hook : Form -> M value) (c : FormClass)
    (self : Form) (w : World) (d : date) :
  c ∈ temporal_forms ->
  clean_hook E c "date" = Some hook ->
  cleaned_data self !! "date" = Some (VDate d) ->
  date_ltb d (dt_date (clock E (ticks w))) = true ->
  hook self w =
  (Raise (ValidationError "Date should not be before today's date."
            (date_error_code c)), tick w).
Proof.
  unfold temporal_forms. intros Hc Hh Hd Hlt.
  repeat (apply elem_of_cons in Hc as [-> | Hc]);
    [| | | by apply elem_of_nil in Hc];
    simpl in Hh; injection Hh as <-;
    unfold RequestMeetupForm_clean_date, AddMeetupForm_clean_date,
      RequestVirtualMeetupForm_clean_date, bind, timezone_now, lift, dict_get,
      raise, tick;
    rewrite Hd; simpl; by rewrite Hlt.
Qed.

(** [clean_time] lets a time through when there is none, when the cleaned
    date is not today, or when the time has not passed. *)
Lemma time_hook_accepts (E : Env) (hook : Form -> M value) (c : FormClass)
    (self : Form) (w : World) (tv : value) :
  c ∈ temporal_forms ->
  clean_hook E c "time" = Some hook ->
  cleaned_data self !! "time" = Some tv ->
  truthy tv = false
  \/ dict_get (cleaned_data self) "date" <> VDate (dt_date (clock E (ticks w)))
  \/ (exists t, tv = VTime t
                /\ time_ltb t (dt_time (clock E (S (ticks w)))) = false) ->
  exists w', hook self w = (Ok tv, w') /\ same_store w w'.
Proof.
  intros Hc Hh Ht Hcase.
  destruct (clean_time_hooks E c hook Hc Hh) as [code Heq].
  rewrite Heq. cbv zeta.
  assert (Hg : dict_get (cleaned_data self) "time" = tv)
    by (unfold dict_get; by rewrite Ht).
  rewrite !Hg.
  destruct (truthy tv) eqn:Htr.
  2: { exists w. split; [done | apply same_store_refl]. }
  unfold bind, timezone_now, lift, raise, ret, py_eq.
  case_bool_decide as Hd.
  2: { eexists. split; [reflexivity | apply same_store_tick]. }
  destruct Hcase as [? | [? | (t & -> & Hlt)]]; [congruence | done |].
  cbn [py_lt ticks]. rewrite Hlt.
  eexists. split; [reflexivity |]. done.
Qed.

(** The fields of a creating form clean without error when the date is
    not past and [clean_time] lets the time through. *)
Lemma temporal_clean_fields_ok (E : Env) (c : FormClass)
    (parsed : string -> result value) (self : Form) (w : World)
    (d : date) (tv : value) :
  c ∈ temporal_forms ->
  (forall name, exists v, parsed name = Ok v) ->
  parsed "date" = Ok (VDate d) ->
  parsed "time" = Ok tv ->
  date_ltb d (dt_date (clock E (ticks w))) = false ->
  truthy tv = false
  \/ VDate d <> VDate (dt_date (clock E (S (ticks w))))
  \/ (exists t, tv = VTime t
                /\ time_ltb t (dt_time (clock E (S (S (ticks w))))) = false) ->
  exists self' w',
    clean_fields E c parsed self w = (Ok self', w')
    /\ errors self' = []
    /\ cleaned_data self' !! "date" = Some (VDate d)
    /\ cleaned_data self' !! "time" = Some tv
    /\ same_store w w'.
Proof.
  intros Hc Hall Hd Ht Hlt Hcase.
  destruct (temporal_form_shape E c Hc)
    as (hd & ht & rest0 & Hhd & Hht & Hti & Hsl & Hff0).
  destruct (temporal_form_rest E c Hc) as (rest & Hff & Hnd & Hnt).
  destruct (Hall "title") as [v1 Hv1]. destruct (Hall "slug") as [v2 Hv2].
  unfold clean_fields. rewrite Hff.
  cbn [clean_fields_loop]. unfold bind at 1.
  rewrite (clean_field_plain E c parsed _ "title" v1 w Hti Hv1).
  unfold bind at 1.
  rewrite (clean_field_plain E c parsed _ "slug" v2 w Hsl Hv2).
  unfold bind at 1. unfold clean_field at 1. rewrite Hd, Hhd.
  match goal with
  | |- context [hd ?s w] =>
      destruct (date_hook_run E hd c s w d Hc Hhd) as [dcode ->];
      [apply lookup_insert_eq |]
  end.
  rewrite Hlt.
  unfold bind at 1. unfold clean_field at 1. rewrite Ht, Hht.
  match goal with
  | |- context [ht ?s (tick w)] =>
      destruct (time_hook_accepts E ht c s (tick w) tv Hc Hht)
        as (w2 & -> & Hst)
  end.
  { apply lookup_insert_eq. }
  { destruct Hcase as [? | [Hne | ?]]; [by left | | by right; right].
    right. left. unfold dict_get. cbn [set_cleaned cleaned_data].
    rewrite (lookup_insert_ne _ "time" "date") by done.
    by rewrite lookup_insert_eq. }
  match goal with
  | |- context [clean_fields_loop E c parsed rest ?s w2] =>
      destruct (clean_fields_loop_no_hooks E c parsed rest s w2)
        as (self' & Hrun & He & Hout)
  end.
  { intros name Hname. apply clean_hook_other; intros ->; done. }
  { intros name _. apply Hall. }
  exists self', w2. split; [exact Hrun |]. split; [by rewrite He |].
  split; [| split].
  - rewrite (Hout "date" Hnd). cbn [set_cleaned cleaned_data].
    rewrite (lookup_insert_ne _ "time" "date") by done.
    by rewrite lookup_insert_ne, lookup_insert_eq.
  - rewrite (Hout "time" Hnt). cbn [set_cleaned cleaned_data].
    apply lookup_insert_eq.
  - apply (same_store_trans w (tick w)); [apply same_store_tick | done].
Qed.

(** X11. While the clock stands at [now], a creating form whose fields
    all clean is accepted exactly when the date is not before today and,
    if the date is today, the time is not before now: a future meetup and
    one at this very moment are accepted, a past one never. *)
Theorem creating_forms_accept_exactly_the_future
    (E : Env) (c : FormClass) (now : datetime)
    (parsed : string -> result value) (self : Form) (w : World)
    (d : date) (t : time) :
  c ∈ temporal_forms ->
  frozen E now ->
  (forall name, exists v, parsed name = Ok v) ->
  parsed "date" = Ok (VDate d) ->
  parsed "time" = Ok (VTime t) ->
  accepted (clean_fields E c parsed self w) =
  negb (date_ltb d (dt_date now)
        || (bool_decide (d = dt_date now) && time_ltb t (dt_time now))).
Proof.
  intros Hc Hfz Hall Hd Ht.
  destruct (date_ltb d (dt_date now)) eqn:Hlt.
  { simpl. apply (temporal_forms_validate c Hc E now parsed self w d t); auto. }
  case_bool_decide as Heq.
  - destruct (time_ltb t (dt_time now)) eqn:Hpassed.
    { simpl.
      apply (temporal_forms_validate c Hc E now parsed self w d t); auto. }
    simpl.
    destruct (temporal_clean_fields_ok E c parsed self w d (VTime t))
      as (self' & w' & Hrun & He & _); auto.
    { by rewrite Hfz. }
    { right. right. exists t. by rewrite Hfz. }
    unfold accepted. rewrite Hrun. simpl. by rewrite He.
  - simpl.
    destruct (temporal_clean_fields_ok E c parsed self w d (VTime t))
      as (self' & w' & Hrun & He & _); auto.
    { by rewrite Hfz. }
    { right. left. rewrite Hfz. congruence. }
    unfold accepted. rewrite Hrun. simpl. by rewrite He.
Qed.

Lemma sample_submission_parses (d : date) (t : time) (name : string) :
  exists v, sample_submission d t name = Ok v.
Proof.
  unfold sample_submission.
  destruct (String.eqb name "date"); [eauto |].
  destruct (String.eqb name "time"); eauto.
Qed.

Lemma creating_forms_accept_exactly_the_future_witness :
  accepted (clean_fields sample_env AddMeetupForm
              (sample_submission (mkDate 2024 5 10) (mkTime 12 30 0 0))
              blank_form empty_world) = true
  /\ accepted (clean_fields sample_env AddMeetupForm
                 (sample_submission (mkDate 2024 5 10) (mkTime 12 29 59 999999))
                 blank_form empty_world) = false.
Proof.
  split.
  - rewrite (creating_forms_accept_exactly_the_future
               sample_env AddMeetupForm sample_now _ blank_form empty_world
               (mkDate 2024 5 10) (mkTime 12 30 0 0)); try reflexivity.
    + unfold temporal_forms. repeat constructor.
    + intros n. reflexivity.
    + apply sample_submission_parses.
  - rewrite (creating_forms_accept_exactly_the_future
               sample_env AddMeetupForm sample_now _ blank_form empty_world
               (mkDate 2024 5 10) (mkTime 12 29 59 999999)); try reflexivity.
    + unfold temporal_forms. repeat constructor.
    + intros n. reflexivity.
    + apply sample_submission_parses.
Defined.

(** X12. A past date costs one error only.  When [clean_date] rejects
    the date of a creating form, the date leaves the cleaned data, so
    [clean_time] finds no date to compare with today and lets any time
    through: the form ends with the single error of the date (with the
    code [date_in_past], none for AddMeetupForm) and the time cleaned as
    its field gave it. *)
Theorem past_date_is_the_only_error
    (E : Env) (c : FormClass) (parsed : string -> result value)
    (self : Form) (w : World) (d : date) (tv : value) :
  c ∈ temporal_forms ->
  (forall name, exists v, parsed name = Ok v) ->
  parsed "date" = Ok (VDate d) ->
  parsed "time" = Ok tv ->
  date_ltb d (dt_date (clock E (ticks w))) = true ->
  exists self' w',
    clean_fields E c parsed self w = (Ok self', w')
    /\ errors self' =
       [("date", ValidationError "Date should not be before today's date."
                   (date_error_code c))]
    /\ cleaned_data self' !! "date" = None
    /\ cleaned_data self' !! "time" = Some tv.
Proof.
  intros Hc Hall Hd Ht Hlt.
  destruct (temporal_form_shape E c Hc)
    as (hd & ht & rest0 & Hhd & Hht & Hti & Hsl & Hff0).
  destruct (temporal_form_rest E c Hc) as (rest & Hff & Hnd & Hnt).
  destruct (Hall "title") as [v1 Hv1]. destruct (Hall "slug") as [v2 Hv2].
  unfold clean_fields. rewrite Hff.
  cbn [clean_fields_loop]. unfold bind at 1.
  rewrite (clean_field_plain E c parsed _ "title" v1 w Hti Hv1).
  unfold bind at 1.
  rewrite (clean_field_plain E c parsed _ "slug" v2 w Hsl Hv2).
  unfold bind at 1. unfold clean_field at 1. rewrite Hd, Hhd.
  match goal with
  | |- context [hd ?s w] =>
      rewrite (date_hook_rejects E hd c s w d Hc Hhd
                 ltac:(apply lookup_insert_eq) Hlt)
  end.
  unfold bind at 1. unfold clean_field at 1. rewrite Ht, Hht.
  match goal with
  | |- context [ht ?s (tick w)] =>
      destruct (time_hook_accepts E ht c s (tick w) tv Hc Hht)
        as (w2 & -> & Hst)
  end.
  { apply lookup_insert_eq. }
  { right. left. unfold dict_get. cbn [set_cleaned add_error cleaned_data].
    rewrite (lookup_insert_ne _ "time" "date") by done.
    by rewrite lookup_delete_eq. }
  match goal with
  | |- context [clean_fields_loop E c parsed rest ?s w2] =>
      destruct (clean_fields_loop_no_hooks E c parsed rest s w2)
        as (self' & Hrun & He & Hout)
  end.
  { intros name Hname. apply clean_hook_other; intros ->; done. }
  { intros name _. apply Hall. }
  exists self', w2. split; [exact Hrun |]. split; [by rewrite He |]. split.
  - rewrite (Hout "date" Hnd). cbn [set_cleaned add_error cleaned_data].
    rewrite (lookup_insert_ne _ "time" "date") by done.
    by rewrite lookup_insert_ne, lookup_delete_eq.
  - rewrite (Hout "time" Hnt). cbn [set_cleaned cleaned_data].
    apply lookup_insert_eq.
Qed.

Lemma past_date_is_the_only_error_witness :
  exists self' w',
    clean_fields sample_env RequestMeetupForm
      (sample_submission (mkDate 2024 5 9) (mkTime 8 0 0 0))
      blank_form empty_world = (Ok self', w')
    /\ errors self' =
       [("date", ValidationError "Date should not be before today's date."
                   (Some "date_in_past"))]
    /\ cleaned_data self' !! "time" = Some (VTime (mkTime 8 0 0 0)).
Proof.
  destruct (past_date_is_the_only_error sample_env RequestMeetupForm
              (sample_submission (mkDate 2024 5 9) (mkTime 8 0 0 0))
              blank_form empty_world (mkDate 2024 5 9) (VTime (mkTime 8 0 0 0)))
    as (self' & w' & Hrun & He & _ & Ht); try reflexivity.
  - unfold temporal_forms. repeat constructor.
  - apply sample_submission_parses.
  - exists self', w'. split; [exact Hrun |]. split; [exact He | exact Ht].
Defined.
